(** * The chat-completion edge function: provider routing and normalisation

    A shallow embedding of [supabase/edge-functions/chat-completion.ts]:
    the [Deno.serve] handler, [formatMessagesForProvider], [callOpenAI],
    [callClaude] and [callMistral], over a small model of the JavaScript
    values that travel through them. *)

From Stdlib Require Import String Ascii List Bool ZArith Lia DecimalString.
Import ListNotations.
Local Open Scope list_scope.
Local Open Scope string_scope.
Local Open Scope Z_scope.

Set Warnings "-register-all".

(** ** JavaScript values

    The router only ever holds values that came out of [JSON.parse], plus
    [undefined] (an absent property, an unset environment variable).  A number
    is carried as its canonical decimal rendering, the text [String(n)] gives
    (and [JSON.stringify(n)] too, when [n] is finite): the router never
    computes with a number, it tests it for truthiness, prints it or forwards
    it.  An object is its own
    properties in insertion order. *)

Inductive JSValue : Type :=
| JUndefined
| JNull
| JBool (b : bool)
| JNum (repr : string)
| JStr (s : string)
| JArr (elems : list JSValue)
| JObj (fields : list (string * JSValue)).

(** What a [throw] carries: the three error classes the handler can see, each
    with its [message].  The text of a [TypeError] or [SyntaxError] is the
    engine's; the text of an [Error] is the router's own. *)
Inductive JsError : Type :=
| Error (msg : string)
| TypeError (msg : string)
| SyntaxError (msg : string).

Definition message (e : JsError) : string :=
  match e with
  | Error m | TypeError m | SyntaxError m => m
  end.

(** A computation that returns or throws. *)
Inductive result (A : Type) : Type :=
| Ok (a : A)
| Throw (e : JsError).
Arguments Ok {A} a.
Arguments Throw {A} e.

Definition rbind {A B} (r : result A) (k : A -> result B) : result B :=
  match r with
  | Ok a => k a
  | Throw e => Throw e
  end.

Notation "'let?' x ':=' r 'in' k" := (rbind r (fun x => k))
  (at level 10, x name, r at level 100, k at level 200).

(** ** Operators of the language *)

(** [!v] is [negb (truthy v)].  [JSON.parse] yields neither [NaN] nor a
    distinguishable [-0], so the only falsy number renders as ["0"]. *)
Definition truthy (v : JSValue) : bool :=
  match v with
  | JUndefined | JNull => false
  | JBool b => b
  | JNum r => negb (String.eqb r "0")
  | JStr s => negb (String.eqb s "")
  | JArr _ | JObj _ => true
  end.

Definition nullish (v : JSValue) : bool :=
  match v with
  | JUndefined | JNull => true
  | _ => false
  end.

(** [a || b] *)
Definition or_else (a b : JSValue) : JSValue :=
  if truthy a then a else b.

(** [v === 'lit'] for a string literal. *)
Definition strict_eq_str (v : JSValue) (lit : string) : bool :=
  match v with
  | JStr s => String.eqb s lit
  | _ => false
  end.

Definition isArray (v : JSValue) : bool :=
  match v with
  | JArr _ => true
  | _ => false
  end.

Definition elements (v : JSValue) : list JSValue :=
  match v with
  | JArr l => l
  | _ => []
  end.

Definition show_nat (n : nat) : string :=
  NilEmpty.string_of_uint (Nat.to_uint n).

(** The own property [k] of an object; a later binding of the same name
    shadows an earlier one, as in [JSON.parse]. *)
Fixpoint find_field (k : string) (fs : list (string * JSValue)) : option JSValue :=
  match fs with
  | [] => None
  | (k', v) :: rest =>
      match find_field k rest with
      | Some found => Some found
      | None => if String.eqb k' k then Some v else None
      end
  end.

Definition lookup_field (k : string) (fs : list (string * JSValue)) : JSValue :=
  match find_field k fs with
  | Some v => v
  | None => JUndefined
  end.

Definition has_field (k : string) (fs : list (string * JSValue)) : bool :=
  existsb (fun kv => String.eqb (fst kv) k) fs.

(** The index a property name denotes, among the first [n] indices. *)
Definition index_of_key (k : string) (n : nat) : option nat :=
  find (fun i => String.eqb (show_nat i) k) (seq 0 n).

Definition array_prop (l : list JSValue) (k : string) : JSValue :=
  if String.eqb k "length" then JNum (show_nat (List.length l))
  else match index_of_key k (List.length l) with
       | Some i => nth i l JUndefined
       | None => JUndefined
       end.

Definition string_prop (s : string) (k : string) : JSValue :=
  if String.eqb k "length" then JNum (show_nat (String.length s))
  else match index_of_key k (String.length s) with
       | Some i =>
           match String.get i s with
           | Some c => JStr (String c EmptyString)
           | None => JUndefined
           end
       | None => JUndefined
       end.

(** [v.k] and [v[k]].  Reading a property of [undefined] or [null] throws; a
    number or a boolean has none.  The router reads only the names written in
    its source, none of which a built-in prototype defines, so only own
    properties are modelled. *)
Definition get (v : JSValue) (k : string) : result JSValue :=
  match v with
  | JUndefined =>
      Throw (TypeError ("Cannot read properties of undefined (reading '" ++ k ++ "')"))
  | JNull =>
      Throw (TypeError ("Cannot read properties of null (reading '" ++ k ++ "')"))
  | JBool _ | JNum _ => Ok JUndefined
  | JStr s => Ok (string_prop s k)
  | JArr l => Ok (array_prop l k)
  | JObj fs => Ok (lookup_field k fs)
  end.

(** [v?.k] *)
Definition opt_get (v : JSValue) (k : string) : JSValue :=
  match v with
  | JUndefined | JNull => JUndefined
  | JBool _ | JNum _ => JUndefined
  | JStr s => string_prop s k
  | JArr l => array_prop l k
  | JObj fs => lookup_field k fs
  end.

(** [`${v}`]: the string conversion of a template literal.  An array joins
    its elements with commas, [null] and [undefined] elements printing as
    nothing.  A plain object prints as [[object Object]] unless it has an own
    [toString] property, which out of [JSON.parse] is never callable, and then
    the conversion throws. *)
Fixpoint to_string (v : JSValue) : result string :=
  match v with
  | JUndefined => Ok "undefined"
  | JNull => Ok "null"
  | JBool true => Ok "true"
  | JBool false => Ok "false"
  | JNum r => Ok r
  | JStr s => Ok s
  | JArr l =>
      (fix join (l : list JSValue) : result string :=
         match l with
         | [] => Ok ""
         | x :: rest =>
             let? s := (match x with
                        | JUndefined | JNull => Ok ""
                        | _ => to_string x
                        end) in
             match rest with
             | [] => Ok s
             | _ :: _ => let? t := join rest in Ok (s ++ "," ++ t)
             end
         end) l
  | JObj fs =>
      if has_field "toString" fs
      then Throw (TypeError "Cannot convert object to primitive value")
      else Ok "[object Object]"
  end.

(** [xs.map(f)] for a callback that may throw: elements left to right, the
    first throw ends the loop. *)
Fixpoint map_result {A B} (f : A -> result B) (xs : list A) : result (list B) :=
  match xs with
  | [] => Ok []
  | x :: rest =>
      let? y := f x in
      let? ys := map_result f rest in
      Ok (y :: ys)
  end.

(** ** formatMessagesForProvider *)

Definition copy_message (msg : JSValue) : result JSValue :=
  let? role := get msg "role" in
  let? content := get msg "content" in
  Ok (JObj [("role", role); ("content", content)]).

Definition claude_message (msg : JSValue) : result JSValue :=
  let? role := get msg "role" in
  let? content := get msg "content" in
  Ok (JObj [("role", if strict_eq_str role "user" then JStr "human" else JStr "assistant");
            ("content", content)]).

Definition formatMessagesForProvider (messages : list JSValue) (provider : JSValue)
  : result (list JSValue) :=
  if strict_eq_str provider "openai" then map_result copy_message messages
  else if strict_eq_str provider "claude" then map_result claude_message messages
  else if strict_eq_str provider "mistral" then map_result copy_message messages
  else Ok messages.

(** ** The world outside the handler

    The handler reads the environment with [Deno.env.get], calls [fetch], and
    logs to the console.  The world answers the first two; every such call is
    recorded, in order, so that a theorem can say which calls were made. *)

(** The second argument of [fetch]; [fi_body] is the value handed to
    [JSON.stringify]. *)
Record FetchInit : Type := {
  fi_method : string;
  fi_headers : list (string * JSValue);
  fi_body : JSValue
}.

(** What the handler reads of an upstream response: its status, and the
    outcome of [response.json()]. *)
Record UpstreamResponse : Type := {
  up_status : Z;
  up_json : result JSValue
}.

(** [response.ok] *)
Definition ok (r : UpstreamResponse) : bool :=
  (200 <=? up_status r) && (up_status r <=? 299).

Record World : Type := {
  env : string -> option string;
  fetch : string -> FetchInit -> result UpstreamResponse
}.

Inductive Event : Type :=
| EnvGet (name : string)
| Fetch (url : string) (init : FetchInit)
| ConsoleError (label : string) (e : JsError).

Definition M (A : Type) : Type := World -> list Event * result A.

Definition ret {A} (a : A) : M A := fun _ => ([], Ok a).

Definition throw {A} (e : JsError) : M A := fun _ => ([], Throw e).

Definition lift {A} (r : result A) : M A := fun _ => ([], r).

Definition bind {A B} (m : M A) (k : A -> M B) : M B :=
  fun w =>
    match m w with
    | (log, Ok a) => let (log', r) := k a w in ((log ++ log')%list, r)
    | (log, Throw e) => (log, Throw e)
    end.

Notation "'let!' x ':=' m 'in' k" := (bind m (fun x => k))
  (at level 10, x name, m at level 100, k at level 200).

(** [Deno.env.get(name)] *)
Definition env_get (name : string) : M JSValue :=
  fun w => ([EnvGet name],
            Ok (match env w name with
                | Some s => JStr s
                | None => JUndefined
                end)).

(** [await fetch(url, init)] *)
Definition do_fetch (url : string) (init : FetchInit) : M UpstreamResponse :=
  fun w => ([Fetch url init], fetch w url init).

(** The upstream calls of a log. *)
Fixpoint fetches (log : list Event) : list (string * FetchInit) :=
  match log with
  | [] => []
  | Fetch url init :: rest => (url, init) :: fetches rest
  | _ :: rest => fetches rest
  end.

(** The environment variables a log looked up. *)
Fixpoint env_lookups (log : list Event) : list string :=
  match log with
  | [] => []
  | EnvGet name :: rest => name :: env_lookups rest
  | _ :: rest => env_lookups rest
  end.

(** ** The three provider calls *)

(** The [if (!response.ok)] branch, the same in the three functions but for
    the provider's name in the message. *)
Definition upstream_failure {A} (name : string) (response : UpstreamResponse) : M A :=
  let! errorData := lift (up_json response) in
  let! err := lift (get errorData "error") in
  let! detail := lift (to_string (or_else (opt_get err "message") (JStr "Unknown error"))) in
  throw (Error (name ++ " API error: " ++ detail)).

Definition callOpenAI (messages model apiKey stream : JSValue) : M JSValue :=
  let! key := lift (to_string apiKey) in
  let! response :=
    do_fetch "https://api.openai.com/v1/chat/completions"
      {| fi_method := "POST";
         fi_headers := [("Authorization", JStr ("Bearer " ++ key));
                        ("Content-Type", JStr "application/json")];
         fi_body := JObj [("model", model); ("messages", messages); ("stream", stream)] |} in
  if negb (ok response) then upstream_failure "OpenAI" response
  else
    let! data := lift (up_json response) in
    let! choices := lift (get data "choices") in
    let! first := lift (get choices "0") in
    let! usage := lift (get data "usage") in
    let! model' := lift (get data "model") in
    ret (JObj [("content", or_else (opt_get (opt_get first "message") "content") (JStr ""));
               ("usage", usage);
               ("model", model')]).

Definition callClaude (messages model apiKey stream : JSValue) : M JSValue :=
  let! response :=
    do_fetch "https://api.anthropic.com/v1/messages"
      {| fi_method := "POST";
         fi_headers := [("x-api-key", apiKey);
                        ("Content-Type", JStr "application/json");
                        ("anthropic-version", JStr "2023-06-01")];
         fi_body := JObj [("model", model); ("max_tokens", JNum "4000");
                          ("messages", messages); ("stream", stream)] |} in
  if negb (ok response) then upstream_failure "Claude" response
  else
    let! data := lift (up_json response) in
    let! content := lift (get data "content") in
    let! first := lift (get content "0") in
    let! usage := lift (get data "usage") in
    let! model' := lift (get data "model") in
    ret (JObj [("content", or_else (opt_get first "text") (JStr ""));
               ("usage", usage);
               ("model", model')]).

Definition callMistral (messages model apiKey stream : JSValue) : M JSValue :=
  let! key := lift (to_string apiKey) in
  let! response :=
    do_fetch "https://api.mistral.ai/v1/chat/completions"
      {| fi_method := "POST";
         fi_headers := [("Authorization", JStr ("Bearer " ++ key));
                        ("Content-Type", JStr "application/json")];
         fi_body := JObj [("model", model); ("messages", messages); ("stream", stream)] |} in
  if negb (ok response) then upstream_failure "Mistral" response
  else
    let! data := lift (up_json response) in
    let! choices := lift (get data "choices") in
    let! first := lift (get choices "0") in
    let! usage := lift (get data "usage") in
    let! model' := lift (get data "model") in
    ret (JObj [("content", or_else (opt_get (opt_get first "message") "content") (JStr ""));
               ("usage", usage);
               ("model", model')]).

(** ** The handler *)

Record Request : Type := {
  req_method : string;
  (** the outcome of [await req.json()] *)
  req_json : result JSValue
}.

(** [req.provider]: a [Request] of the Fetch API has no such property. *)
Definition req_provider (req : Request) : JSValue := JUndefined.

Record Response : Type := {
  res_status : Z;
  res_headers : list (string * string);
  (** the value handed to [JSON.stringify], [None] for a [null] body *)
  res_body : option JSValue
}.

Definition corsHeaders : list (string * string) :=
  [("Access-Control-Allow-Origin", "*");
   ("Access-Control-Allow-Headers", "authorization, x-client-info, apikey, content-type");
   ("Access-Control-Allow-Methods", "POST, GET, OPTIONS, PUT, DELETE, PATCH");
   ("Access-Control-Max-Age", "86400");
   ("Access-Control-Allow-Credentials", "false")].

Definition jsonHeaders : list (string * string) :=
  (corsHeaders ++ [("Content-Type", "application/json")])%list.

(** A destructuring default, [name = d]: it applies to [undefined] only. *)
Definition with_default (v d : JSValue) : JSValue :=
  match v with
  | JUndefined => d
  | given => given
  end.

Record Destructured : Type := {
  d_messages : JSValue;
  d_model : JSValue;
  d_provider : JSValue;
  d_stream : JSValue;
  d_userApiKey : JSValue
}.

(** [const { messages, model, provider, stream = false, userApiKey } = body] *)
Definition destructure (body : JSValue) : result Destructured :=
  if nullish body then
    Throw (TypeError
      ("Cannot destructure property 'messages' of '(intermediate value)' as it is "
       ++ (match body with JNull => "null" | _ => "undefined" end) ++ "."))
  else
    Ok {| d_messages := opt_get body "messages";
          d_model := opt_get body "model";
          d_provider := opt_get body "provider";
          d_stream := with_default (opt_get body "stream") (JBool false);
          d_userApiKey := opt_get body "userApiKey" |}.

(** [throw new Error(`${prefix}${provider}`)] *)
Definition throw_about {A} (prefix : string) (provider : JSValue) : M A :=
  let! name := lift (to_string provider) in
  throw (Error (prefix ++ name)).

(** Lines 29 to 44: the key the caller gave, else the provider's secret. *)
Definition resolveApiKey (userApiKey provider : JSValue) : M JSValue :=
  if negb (truthy userApiKey) then
    if strict_eq_str provider "openai" then env_get "OPENAI_API_KEY"
    else if strict_eq_str provider "claude" then env_get "ANTHROPIC_API_KEY"
    else if strict_eq_str provider "mistral" then env_get "MISTRAL_API_KEY"
    else throw_about "Unsupported provider: " provider
  else ret userApiKey.

(** Lines 54 to 67: the dispatch switch. *)
Definition dispatch (formattedMessages model provider apiKey stream : JSValue) : M JSValue :=
  if strict_eq_str provider "openai" then callOpenAI formattedMessages model apiKey stream
  else if strict_eq_str provider "claude" then callClaude formattedMessages model apiKey stream
  else if strict_eq_str provider "mistral" then callMistral formattedMessages model apiKey stream
  else throw_about "Unsupported provider: " provider.

(** The body of the [try] block, up to the value that is serialised. *)
Definition route (req : Request) : M JSValue :=
  let! body := lift (req_json req) in
  let! d := lift (destructure body) in
  if negb (truthy (d_messages d)) || negb (isArray (d_messages d))
     || (List.length (elements (d_messages d)) =? 0)%nat
  then throw (Error "Messages array is required")
  else if negb (truthy (d_model d)) || negb (truthy (d_provider d))
  then throw (Error "Model and provider are required")
  else
    let! apiKey := resolveApiKey (d_userApiKey d) (d_provider d) in
    if negb (truthy apiKey)
    then throw_about "API key not found for provider: " (d_provider d)
    else
      let! formattedMessages :=
        lift (formatMessagesForProvider (elements (d_messages d)) (d_provider d)) in
      dispatch (JArr formattedMessages) (d_model d) (d_provider d) apiKey (d_stream d).

(** The body of the [catch] block. *)
Definition errorResponse (req : Request) (error : JsError) : JSValue :=
  JObj [("error",
         JObj [("code", JStr "CHAT_COMPLETION_FAILED");
               ("message", JStr (message error));
               ("provider", or_else (req_provider req) (JStr "unknown"))])].

(** The function given to [Deno.serve]. *)
Definition handler (req : Request) (w : World) : list Event * Response :=
  if String.eqb (req_method req) "OPTIONS" then
    ([], {| res_status := 200; res_headers := corsHeaders; res_body := None |})
  else
    match route req w with
    | (log, Ok response) =>
        (log, {| res_status := 200; res_headers := jsonHeaders;
                 res_body := Some response |})
    | (log, Throw error) =>
        ((log ++ [ConsoleError "Chat completion error:" error])%list,
         {| res_status := 500; res_headers := jsonHeaders;
            res_body := Some (errorResponse req error) |})
    end.

(** ** Concrete runs *)

Definition msg (role content : string) : JSValue :=
  JObj [("role", JStr role); ("content", JStr content)].

Definition request_body (messages : list JSValue) (model provider : string) : JSValue :=
  JObj [("messages", JArr messages); ("model", JStr model); ("provider", JStr provider)].

Definition post (body : JSValue) : Request :=
  {| req_method := "POST"; req_json := Ok body |}.

(** A world with no secrets whose upstream answers every call alike. *)
Definition mock (answer : result UpstreamResponse) : World :=
  {| env := fun _ => None; fetch := fun _ _ => answer |}.

Definition with_secret (name key : string) (w : World) : World :=
  {| env := fun n => if String.eqb n name then Some key else env w n;
     fetch := fetch w |}.

(** The inverse of the role renaming the specification documents for each
    provider: for claude [human] goes back to [user], for the others nothing
    was renamed.  It is not part of the source; the round trip is stated
    with it. *)
Definition reverse_role_renaming (provider : string) (role : JSValue) : JSValue :=
  if String.eqb provider "claude" then
    if strict_eq_str role "human" then JStr "user" else role
  else role.

Definition supported (p : string) : Prop :=
  p = "openai" \/ p = "claude" \/ p = "mistral".

(** Messages on which [msg.role] does not throw: none is [null]. *)
Definition readable (ms : list JSValue) : Prop :=
  Forall (fun m => nullish m = false) ms.

(** What the two callbacks of [formatMessagesForProvider] build from a
    readable message. *)
Definition copied (m : JSValue) : JSValue :=
  JObj [("role", opt_get m "role"); ("content", opt_get m "content")].

Definition for_claude (m : JSValue) : JSValue :=
  JObj [("role", if strict_eq_str (opt_get m "role") "user"
                 then JStr "human" else JStr "assistant");
        ("content", opt_get m "content")].

(** A computation that calls neither the environment nor the network. *)
Definition quiet {A} (m : M A) : Prop := forall w, fst (m w) = [].

(** The [init] objects the three provider calls build. *)
Definition claude_init (messages model apiKey stream : JSValue) : FetchInit :=
  {| fi_method := "POST";
     fi_headers := [("x-api-key", apiKey);
                    ("Content-Type", JStr "application/json");
                    ("anthropic-version", JStr "2023-06-01")];
     fi_body := JObj [("model", model); ("max_tokens", JNum "4000");
                      ("messages", messages); ("stream", stream)] |}.

Definition bearer_init (messages model : JSValue) (key : string) (stream : JSValue)
  : FetchInit :=
  {| fi_method := "POST";
     fi_headers := [("Authorization", JStr ("Bearer " ++ key));
                    ("Content-Type", JStr "application/json")];
     fi_body := JObj [("model", model); ("messages", messages); ("stream", stream)] |}.

(** The endpoint and the environment secret the source binds to each of its
    three providers, and the [init] its call builds; [ks] is the key as
    printed into a [Bearer] header. *)
Definition endpoint (p : string) : string :=
  if String.eqb p "openai" then "https://api.openai.com/v1/chat/completions"
  else if String.eqb p "claude" then "https://api.anthropic.com/v1/messages"
  else "https://api.mistral.ai/v1/chat/completions".

Definition secret_name (p : string) : string :=
  if String.eqb p "openai" then "OPENAI_API_KEY"
  else if String.eqb p "claude" then "ANTHROPIC_API_KEY"
  else "MISTRAL_API_KEY".

Definition init_for (p : string) (messages model apiKey : JSValue) (ks : string)
    (stream : JSValue) : FetchInit :=
  if String.eqb p "claude" then claude_init messages model apiKey stream
  else bearer_init messages model ks stream.

(** The key as the call to provider [p] prints it: claude's call passes the
    value on as it is. *)
Definition printed_key (p : string) (apiKey : JSValue) : result string :=
  if String.eqb p "claude" then Ok "" else to_string apiKey.

(** What is left of [route] once the request has passed validation. *)
Definition resolve_and_dispatch (ms : list JSValue) (model : JSValue) (p : string)
    (userApiKey stream : JSValue) : M JSValue :=
  let! apiKey := resolveApiKey userApiKey (JStr p) in
  if negb (truthy apiKey)
  then throw_about "API key not found for provider: " (JStr p)
  else
    let! formattedMessages := lift (formatMessagesForProvider ms (JStr p)) in
    dispatch (JArr formattedMessages) model (JStr p) apiKey stream.

(** Where each provider's response carries the text: [choices[0]?.message?.content]
    for openai and mistral, [content[0]?.text] for claude. *)
Definition content_list (p : string) : string :=
  if String.eqb p "claude" then "content" else "choices".

Definition extract_content (p : string) (data : JSValue) : JSValue :=
  if String.eqb p "claude"
  then opt_get (opt_get (opt_get data "content") "0") "text"
  else opt_get (opt_get (opt_get (opt_get data "choices") "0") "message") "content".

(** The bodies of the specification's two mocked upstreams. *)
Definition openai_sample : JSValue :=
  JObj [("choices", JArr [JObj [("message", JObj [("content", JStr "hi")])]]);
        ("usage", JObj [("total_tokens", JNum "3")]);
        ("model", JStr "gpt-4")].

Definition claude_sample : JSValue :=
  JObj [("content", JArr [JObj [("text", JStr "hi")]]);
        ("usage", JObj [("total_tokens", JNum "3")]);
        ("model", JStr "claude-3-opus")].

Definition answers (status : Z) (data : JSValue) : World :=
  mock (Ok {| up_status := status; up_json := Ok data |}).

(** The envelope of the [catch] block, as it comes out for an error [e]. *)
Definition envelope (e : JsError) : JSValue :=
  JObj [("error",
         JObj [("code", JStr "CHAT_COMPLETION_FAILED");
               ("message", JStr (message e));
               ("provider", JStr "unknown")])].

(** The name each provider call puts in front of an upstream error. *)
Definition provider_label (p : string) : string :=
  if String.eqb p "openai" then "OpenAI"
  else if String.eqb p "claude" then "Claude"
  else "Mistral".

(** [errorData.error?.message || 'Unknown error'], before it is printed. *)
Definition failure_detail (errorData : JSValue) : JSValue :=
  or_else (opt_get (opt_get errorData "error") "message") (JStr "Unknown error").

(** The formatted form of a message for a supported provider. *)
Definition formatted_for (p : string) : JSValue -> JSValue :=
  if String.eqb p "claude" then for_claude else copied.

(** A world whose upstream cannot be reached. *)
Definition unreachable (e : JsError) : World := mock (Throw e).

(** A request that passes validation, for one of the three providers, with
    readable messages and a key [k]: the caller's, or else the provider's
    secret in the environment of [w]. *)
Definition in_order (req : Request) (w : World) (body : JSValue)
    (ms : list JSValue) (p k : string) : Prop :=
  req_json req = Ok body
  /\ opt_get body "messages" = JArr ms /\ ms <> [] /\ readable ms
  /\ truthy (opt_get body "model") = true
  /\ opt_get body "provider" = JStr p /\ supported p
  /\ k <> ""
  /\ (opt_get body "userApiKey" = JStr k
      \/ (truthy (opt_get body "userApiKey") = false
          /\ env w (secret_name p) = Some k)).

(** The call a request in order makes. *)
Definition call_of (body : JSValue) (ms : list JSValue) (p k : string)
  : string * FetchInit :=
  (endpoint p,
   init_for p (JArr (map (formatted_for p) ms)) (opt_get body "model") (JStr k) k
     (with_default (opt_get body "stream") (JBool false))).

(** The request of the concrete runs below, and its body. *)
Definition hello_body (p : string) : JSValue :=
  JObj [("messages", JArr [msg "user" "hello"]); ("model", JStr "m-1");
        ("provider", JStr p); ("userApiKey", JStr "sk-mine")].

(** * Properties *)

(** ** Reading properties *)

Lemma get_opt_get (v : JSValue) (k : string) :
  nullish v = false -> get v k = Ok (opt_get v k).
Proof. destruct v; simpl; intros H; try discriminate; reflexivity. Qed.

Lemma strict_eq_str_true (v : JSValue) (lit : string) :
  strict_eq_str v lit = true <-> v = JStr lit.
Proof.
  destruct v; simpl; split; intros H; try discriminate.
  - apply String.eqb_eq in H. now subst.
  - injection H as ->. apply String.eqb_refl.
Qed.

Lemma strict_eq_str_false (v : JSValue) (lit : string) :
  strict_eq_str v lit = false <-> v <> JStr lit.
Proof.
  split.
  - intros H E. apply strict_eq_str_true in E. congruence.
  - intros H. destruct (strict_eq_str v lit) eqn:E; [|reflexivity].
    apply strict_eq_str_true in E. contradiction.
Qed.

(** ** The message transformer *)

Lemma copy_message_readable (m : JSValue) :
  nullish m = false ->
  copy_message m = Ok (copied m).
Proof.
  intros H. unfold copy_message. now rewrite !get_opt_get by assumption.
Qed.

Lemma claude_message_readable (m : JSValue) :
  nullish m = false ->
  claude_message m = Ok (for_claude m).
Proof.
  intros H. unfold claude_message. now rewrite !get_opt_get by assumption.
Qed.

(** [map_result] with a callback that returns on every element is [map]. *)
Lemma map_result_total {A B} (f : A -> result B) (g : A -> B) (P : A -> Prop) xs :
  (forall x, P x -> f x = Ok (g x)) ->
  Forall P xs -> map_result f xs = Ok (map g xs).
Proof.
  intros Hf. induction 1 as [|x xs Hx _ IH]; simpl; [reflexivity|].
  now rewrite (Hf x Hx), IH.
Qed.

Lemma format_claude (ms : list JSValue) :
  readable ms ->
  formatMessagesForProvider ms (JStr "claude") = Ok (map for_claude ms).
Proof.
  intros H. unfold formatMessagesForProvider. simpl.
  exact (map_result_total claude_message for_claude _ ms claude_message_readable H).
Qed.

Lemma format_copy (p : string) (ms : list JSValue) :
  readable ms -> p = "openai" \/ p = "mistral" ->
  formatMessagesForProvider ms (JStr p) = Ok (map copied ms).
Proof.
  intros H [-> | ->]; unfold formatMessagesForProvider; simpl;
    exact (map_result_total copy_message copied _ ms copy_message_readable H).
Qed.

Lemma format_supported (p : string) (ms : list JSValue) :
  readable ms -> supported p ->
  formatMessagesForProvider ms (JStr p) =
    Ok (map (if String.eqb p "claude" then for_claude else copied) ms).
Proof.
  intros H [-> | [-> | ->]]; simpl.
  - apply format_copy; auto.
  - now apply format_claude.
  - apply format_copy; auto.
Qed.

Lemma for_claude_content (m : JSValue) :
  opt_get (for_claude m) "content" = opt_get m "content".
Proof. reflexivity. Qed.

Lemma for_claude_role (m : JSValue) :
  opt_get (for_claude m) "role" =
    if strict_eq_str (opt_get m "role") "user" then JStr "human" else JStr "assistant".
Proof. reflexivity. Qed.

(** ** Logs *)

Lemma log_bind {A B} (m : M A) (k : A -> M B) (w : World) :
  fst (bind m k w) =
    (fst (m w) ++ match snd (m w) with
                  | Ok a => fst (k a w)
                  | Throw _ => []
                  end)%list.
Proof.
  unfold bind. destruct (m w) as [log [a | e]]; simpl.
  - now destruct (k a w).
  - now rewrite app_nil_r.
Qed.

Lemma result_bind {A B} (m : M A) (k : A -> M B) (w : World) :
  snd (bind m k w) =
    match snd (m w) with
    | Ok a => snd (k a w)
    | Throw e => Throw e
    end.
Proof.
  unfold bind. destruct (m w) as [log [a | e]]; simpl; [|reflexivity].
  now destruct (k a w).
Qed.

Lemma quiet_ret {A} (a : A) : quiet (ret a).
Proof. intros w. reflexivity. Qed.

Lemma quiet_throw {A} (e : JsError) : quiet (@throw A e).
Proof. intros w. reflexivity. Qed.

Lemma quiet_lift {A} (r : result A) : quiet (lift r).
Proof. intros w. reflexivity. Qed.

Lemma quiet_bind {A B} (m : M A) (k : A -> M B) :
  quiet m -> (forall a, quiet (k a)) -> quiet (bind m k).
Proof.
  intros Hm Hk w. rewrite log_bind, Hm. simpl.
  destruct (snd (m w)); [apply Hk | reflexivity].
Qed.

Lemma quiet_if {A} (b : bool) (m1 m2 : M A) :
  quiet m1 -> quiet m2 -> quiet (if b then m1 else m2).
Proof. now destruct b. Qed.

Create HintDb quiet.
#[local] Hint Resolve quiet_ret quiet_throw quiet_lift quiet_bind quiet_if : quiet.

Lemma quiet_throw_about {A} (prefix : string) (provider : JSValue) :
  quiet (@throw_about A prefix provider).
Proof. unfold throw_about. auto with quiet. Qed.

Lemma quiet_upstream_failure {A} (name : string) (response : UpstreamResponse) :
  quiet (@upstream_failure A name response).
Proof. unfold upstream_failure. auto 10 with quiet. Qed.

#[local] Hint Resolve quiet_throw_about quiet_upstream_failure : quiet.

(** A computation that starts with the one [fetch] and is quiet after it. *)
Lemma log_fetch_then_quiet {A} url init (k : UpstreamResponse -> M A) (w : World) :
  (forall r, quiet (k r)) ->
  fst (bind (do_fetch url init) k w) = [Fetch url init].
Proof.
  intros Hk. rewrite log_bind. simpl.
  destruct (fetch w url init); [now rewrite Hk | reflexivity].
Qed.

Lemma log_callClaude (messages model apiKey stream : JSValue) (w : World) :
  fst (callClaude messages model apiKey stream w) =
    [Fetch "https://api.anthropic.com/v1/messages"
       (claude_init messages model apiKey stream)].
Proof.
  unfold callClaude. apply log_fetch_then_quiet.
  intros r. auto 12 with quiet.
Qed.

Lemma log_callOpenAI (messages model apiKey stream : JSValue) (w : World) :
  fst (callOpenAI messages model apiKey stream w) =
    match to_string apiKey with
    | Ok key => [Fetch "https://api.openai.com/v1/chat/completions"
                   (bearer_init messages model key stream)]
    | Throw _ => []
    end.
Proof.
  unfold callOpenAI. rewrite log_bind. simpl.
  destruct (to_string apiKey) as [key | e]; [|reflexivity].
  apply log_fetch_then_quiet. intros r. auto 12 with quiet.
Qed.

Lemma log_callMistral (messages model apiKey stream : JSValue) (w : World) :
  fst (callMistral messages model apiKey stream w) =
    match to_string apiKey with
    | Ok key => [Fetch "https://api.mistral.ai/v1/chat/completions"
                   (bearer_init messages model key stream)]
    | Throw _ => []
    end.
Proof.
  unfold callMistral. rewrite log_bind. simpl.
  destruct (to_string apiKey) as [key | e]; [|reflexivity].
  apply log_fetch_then_quiet. intros r. auto 12 with quiet.
Qed.

(** ** C1: roles for the claude provider *)

(** C1, counterexample: a [system] message sent to claude does not keep its
    role; it stays in the list, with its content, under the role
    [assistant]. *)
Lemma claude_system_role_counterexample :
  formatMessagesForProvider [msg "system" "be brief"] (JStr "claude")
    = Ok [msg "assistant" "be brief"]
  /\ opt_get (msg "system" "be brief") "role" = JStr "system"
  /\ opt_get (msg "assistant" "be brief") "role" <> JStr "system".
Proof. repeat split. discriminate. Qed.

(** C1, as amended: for the claude provider and every list of messages
    (values other than [null]), the transformer returns a list of the same
    length in which the message at each position keeps its content; its role
    is [human] when the input role is [user] and [assistant] for every other
    input role, so [assistant] is unchanged and [system] becomes [assistant].
    Nothing is hoisted: the request body built from the result carries the
    whole list under [messages] and has no top-level [system] field. *)
Theorem claude_role_mapping (ms : list JSValue) :
  readable ms ->
  exists out,
    formatMessagesForProvider ms (JStr "claude") = Ok out
    /\ List.length out = List.length ms
    /\ (forall i m, nth_error ms i = Some m ->
          exists o, nth_error out i = Some o
            /\ opt_get o "content" = opt_get m "content"
            /\ (opt_get m "role" = JStr "user" -> opt_get o "role" = JStr "human")
            /\ (opt_get m "role" = JStr "assistant" ->
                  opt_get o "role" = JStr "assistant")
            /\ (opt_get m "role" <> JStr "user" -> opt_get o "role" = JStr "assistant"))
    /\ (forall model key stream w url init,
          In (Fetch url init) (fst (callClaude (JArr out) model key stream w)) ->
          opt_get (fi_body init) "messages" = JArr out
          /\ opt_get (fi_body init) "system" = JUndefined).
Proof.
  intros H. exists (map for_claude ms). split; [now apply format_claude|].
  split; [apply length_map|]. split.
  - intros i m Hi. exists (for_claude m). split; [now apply map_nth_error|].
    rewrite for_claude_content, for_claude_role. split; [reflexivity|].
    split; [|split].
    + now intros ->.
    + now intros ->.
    + intros Hr. apply strict_eq_str_false in Hr. now rewrite Hr.
  - intros model key stream w url init Hin.
    rewrite log_callClaude in Hin. destruct Hin as [E | []].
    injection E as <- <-. split; reflexivity.
Qed.

Lemma claude_role_mapping_witness :
  exists out,
    formatMessagesForProvider
      [msg "user" "hi"; msg "system" "be brief"; msg "assistant" "hello"]
      (JStr "claude") = Ok out
    /\ nth_error out 0 = Some (msg "human" "hi")
    /\ nth_error out 1 = Some (msg "assistant" "be brief").
Proof.
  destruct (@claude_role_mapping
              [msg "user" "hi"; msg "system" "be brief"; msg "assistant" "hello"])
    as [out [E _]].
  - repeat constructor.
  - exists out. split; [exact E|].
    vm_compute in E. injection E as <-. split; reflexivity.
Defined.

(** ** C3: the round trip on roles *)

(** C3, counterexample: for claude, a [system] role is sent as [assistant],
    and undoing the documented renaming leaves [assistant], not [system]. *)
Lemma round_trip_counterexample :
  exists o,
    formatMessagesForProvider [msg "system" "be brief"] (JStr "claude") = Ok [o]
    /\ reverse_role_renaming "claude" (opt_get o "role") = JStr "assistant"
    /\ reverse_role_renaming "claude" (opt_get o "role")
         <> opt_get (msg "system" "be brief") "role".
Proof.
  exists (msg "assistant" "be brief"). repeat split. discriminate.
Qed.

(** C3, as amended: for each of the three providers and every list of
    messages (values other than [null]), transforming and then undoing the
    documented renaming gives back the role of every message for openai and
    mistral, and for claude the role of every message whose role is [user] or
    [assistant]; a claude message with any other role comes back as
    [assistant]. *)
Theorem round_trip_roles (p : string) (ms : list JSValue) :
  supported p -> readable ms ->
  exists out,
    formatMessagesForProvider ms (JStr p) = Ok out
    /\ List.length out = List.length ms
    /\ forall i m, nth_error ms i = Some m ->
         exists o, nth_error out i = Some o
           /\ (p <> "claude" ->
                 reverse_role_renaming p (opt_get o "role") = opt_get m "role")
           /\ (opt_get m "role" = JStr "user" \/ opt_get m "role" = JStr "assistant" ->
                 reverse_role_renaming p (opt_get o "role") = opt_get m "role")
           /\ (p = "claude" -> opt_get m "role" <> JStr "user" ->
                 reverse_role_renaming p (opt_get o "role") = JStr "assistant").
Proof.
  intros Hp H. rewrite (format_supported p ms H Hp).
  eexists. split; [reflexivity|]. split; [apply length_map|].
  intros i m Hi. eexists. split; [apply map_nth_error, Hi|].
  destruct Hp as [-> | [-> | ->]].
  - simpl. repeat split; auto; discriminate.
  - change (if "claude" =? "claude" then for_claude else copied)%string with for_claude.
    rewrite for_claude_role. split; [congruence|]. split.
    + intros [-> | ->]; reflexivity.
    + intros _ Hr. apply strict_eq_str_false in Hr. now rewrite Hr.
  - simpl. repeat split; auto; discriminate.
Qed.

Lemma round_trip_roles_witness :
  exists out,
    formatMessagesForProvider [msg "user" "hi"; msg "assistant" "hello"] (JStr "claude")
      = Ok out
    /\ map (fun o => reverse_role_renaming "claude" (opt_get o "role")) out
       = [JStr "user"; JStr "assistant"].
Proof.
  destruct (@round_trip_roles "claude" [msg "user" "hi"; msg "assistant" "hello"])
    as [out [E _]].
  - right. left. reflexivity.
  - repeat constructor.
  - exists out. split; [exact E|].
    vm_compute in E. injection E as <-. reflexivity.
Defined.

(** ** The handler, step by step *)

Lemma bind_lift_ok {A B} (a : A) (k : A -> M B) (w : World) :
  bind (lift (Ok a)) k w = k a w.
Proof. unfold bind, lift. now destruct (k a w). Qed.

Lemma destructure_readable (body : JSValue) :
  nullish body = false ->
  destructure body =
    Ok {| d_messages := opt_get body "messages";
          d_model := opt_get body "model";
          d_provider := opt_get body "provider";
          d_stream := with_default (opt_get body "stream") (JBool false);
          d_userApiKey := opt_get body "userApiKey" |}.
Proof. intros H. unfold destructure. now rewrite H. Qed.

Lemma opt_get_nullish (v : JSValue) (k : string) :
  nullish v = true -> opt_get v k = JUndefined.
Proof. destruct v; simpl; intros H; try discriminate; reflexivity. Qed.

Lemma length_eqb_0 {A} (l : list A) : l <> [] -> (List.length l =? 0)%nat = false.
Proof. destruct l; [contradiction | reflexivity]. Qed.

Lemma truthy_JStr (s : string) : s <> "" -> truthy (JStr s) = true.
Proof. intros H. simpl. apply negb_true_iff, String.eqb_neq, H. Qed.

(** A request that passes validation goes on to the credential. *)
Lemma route_valid (req : Request) (w : World) (body : JSValue)
    (ms : list JSValue) (p : string) :
  req_json req = Ok body ->
  opt_get body "messages" = JArr ms -> ms <> [] ->
  truthy (opt_get body "model") = true ->
  opt_get body "provider" = JStr p -> p <> "" ->
  route req w =
    resolve_and_dispatch ms (opt_get body "model") p (opt_get body "userApiKey")
      (with_default (opt_get body "stream") (JBool false)) w.
Proof.
  intros Hj Hm Hne Hmodel Hp Hpne.
  assert (Hb : nullish body = false).
  { destruct (nullish body) eqn:E; [|reflexivity].
    rewrite opt_get_nullish in Hm by assumption. discriminate. }
  unfold route. rewrite Hj, bind_lift_ok, (destructure_readable body Hb), bind_lift_ok.
  cbn [d_messages d_model d_provider d_stream d_userApiKey].
  rewrite Hm, Hmodel, Hp, (truthy_JStr p Hpne).
  cbn [truthy isArray elements negb orb]. rewrite length_eqb_0 by assumption.
  reflexivity.
Qed.

Lemma supported_dec (p : string) :
  supported p \/
  (String.eqb p "openai" = false /\ String.eqb p "claude" = false
   /\ String.eqb p "mistral" = false).
Proof.
  unfold supported.
  destruct (String.eqb_spec p "openai"); [auto|].
  destruct (String.eqb_spec p "claude"); [auto|].
  destruct (String.eqb_spec p "mistral"); auto.
Qed.

(** ** C5: requests that fail validation *)

(** C5: for every request (whatever its provider) whose [messages] is
    missing, not a list, or an empty list, [route] throws the validation
    error "Messages array is required" having made no upstream call; and a
    request whose [model] or [provider] is missing (or otherwise falsy)
    throws one of the two validation errors, the second one when its messages
    are in order, again before any upstream call.  The two validation errors
    are what the specification calls InvalidRequest. *)
Theorem invalid_request (req : Request) (w : World) (body : JSValue) :
  req_json req = Ok body -> nullish body = false ->
  ((opt_get body "messages" = JUndefined
    \/ isArray (opt_get body "messages") = false
    \/ opt_get body "messages" = JArr []) ->
   route req w = ([], Throw (Error "Messages array is required"))
   /\ fetches (fst (route req w)) = [])
  /\ ((truthy (opt_get body "model") = false
       \/ truthy (opt_get body "provider") = false) ->
      (route req w = ([], Throw (Error "Messages array is required"))
       \/ route req w = ([], Throw (Error "Model and provider are required")))
      /\ fetches (fst (route req w)) = []
      /\ (forall ms, opt_get body "messages" = JArr ms -> ms <> [] ->
            route req w = ([], Throw (Error "Model and provider are required")))).
Proof.
  intros Hj Hb.
  assert (E : exists rest, route req w =
    if negb (truthy (opt_get body "messages")) || negb (isArray (opt_get body "messages"))
       || (List.length (elements (opt_get body "messages")) =? 0)%nat
    then ([], Throw (Error "Messages array is required"))
    else if negb (truthy (opt_get body "model")) || negb (truthy (opt_get body "provider"))
    then ([], Throw (Error "Model and provider are required"))
    else rest).
  { unfold route. rewrite Hj, bind_lift_ok, (destructure_readable body Hb), bind_lift_ok.
    cbn [d_messages d_model d_provider d_stream d_userApiKey].
    destruct (_ || _ || _); [now exists ([], Throw (Error ""))|].
    destruct (_ || _); [now exists ([], Throw (Error ""))|].
    eexists. reflexivity. }
  destruct E as [rest E].
  split.
  - intros Hbad.
    assert (C : negb (truthy (opt_get body "messages"))
                || negb (isArray (opt_get body "messages"))
                || (List.length (elements (opt_get body "messages")) =? 0)%nat = true).
    { destruct Hbad as [-> | [Hna | ->]]; [reflexivity | | reflexivity].
      rewrite Hna. simpl. now rewrite orb_true_r. }
    rewrite E, C. split; reflexivity.
  - intros Hmissing.
    assert (C : negb (truthy (opt_get body "model"))
                || negb (truthy (opt_get body "provider")) = true).
    { destruct Hmissing as [-> | ->]; [reflexivity | apply orb_true_r]. }
    rewrite E, C.
    split; [|split].
    + destruct (_ || _ || _); [now left | now right].
    + now destruct (_ || _ || _).
    + intros ms -> Hne. cbn [truthy isArray elements negb orb].
      now rewrite length_eqb_0 by assumption.
Qed.

Lemma invalid_request_witness :
  route (post (request_body [] "gpt-4" "openai")) (mock (Throw (TypeError "fetch failed")))
    = ([], Throw (Error "Messages array is required"))
  /\ route (post (JObj [("messages", JArr [msg "user" "hi"]); ("provider", JStr "claude")]))
       (mock (Throw (TypeError "fetch failed")))
    = ([], Throw (Error "Model and provider are required")).
Proof.
  split.
  - apply (@invalid_request (post (request_body [] "gpt-4" "openai"))
             (mock (Throw (TypeError "fetch failed")))
             (request_body [] "gpt-4" "openai")); try reflexivity.
    right. right. reflexivity.
  - apply (@invalid_request
             (post (JObj [("messages", JArr [msg "user" "hi"]); ("provider", JStr "claude")]))
             (mock (Throw (TypeError "fetch failed")))
             (JObj [("messages", JArr [msg "user" "hi"]); ("provider", JStr "claude")])
             eq_refl eq_refl) with (ms := [msg "user" "hi"]).
    + left. reflexivity.
    + reflexivity.
    + discriminate.
Defined.

(** ** Credential resolution and dispatch *)

Lemma supported_nonempty (p : string) : supported p -> p <> "".
Proof. intros [-> | [-> | ->]]; discriminate. Qed.

Lemma resolve_user_key (u provider : JSValue) (w : World) :
  truthy u = true -> resolveApiKey u provider w = ([], Ok u).
Proof. intros H. unfold resolveApiKey. now rewrite H. Qed.

Lemma resolve_env (u : JSValue) (p : string) (w : World) :
  truthy u = false -> supported p ->
  resolveApiKey u (JStr p) w = env_get (secret_name p) w.
Proof.
  intros H Hp. unfold resolveApiKey. rewrite H.
  destruct Hp as [-> | [-> | ->]]; reflexivity.
Qed.

Lemma resolve_unsupported (u : JSValue) (p : string) (w : World) :
  truthy u = false -> ~ supported p ->
  resolveApiKey u (JStr p) w = ([], Throw (Error ("Unsupported provider: " ++ p))).
Proof.
  intros H Hp. unfold resolveApiKey. rewrite H.
  destruct (supported_dec p) as [Hs | (E1 & E2 & E3)]; [contradiction|].
  cbn [negb strict_eq_str]. now rewrite E1, E2, E3.
Qed.

Lemma dispatch_unsupported (fm model key stream : JSValue) (p : string) (w : World) :
  ~ supported p ->
  dispatch fm model (JStr p) key stream w =
    ([], Throw (Error ("Unsupported provider: " ++ p))).
Proof.
  intros Hp. unfold dispatch.
  destruct (supported_dec p) as [Hs | (E1 & E2 & E3)]; [contradiction|].
  cbn [strict_eq_str]. now rewrite E1, E2, E3.
Qed.

Lemma format_unsupported (ms : list JSValue) (p : string) :
  ~ supported p -> formatMessagesForProvider ms (JStr p) = Ok ms.
Proof.
  intros Hp. unfold formatMessagesForProvider.
  destruct (supported_dec p) as [Hs | (E1 & E2 & E3)]; [contradiction|].
  cbn [strict_eq_str]. now rewrite E1, E2, E3.
Qed.

Lemma log_dispatch (fm model key stream : JSValue) (p : string) (w : World) :
  supported p ->
  fst (dispatch fm model (JStr p) key stream w) =
    match printed_key p key with
    | Ok ks => [Fetch (endpoint p) (init_for p fm model key ks stream)]
    | Throw _ => []
    end.
Proof.
  intros [-> | [-> | ->]].
  - apply log_callOpenAI.
  - apply log_callClaude.
  - apply log_callMistral.
Qed.

Lemma resolve_and_dispatch_unsupported (ms : list JSValue) (model : JSValue)
    (p : string) (u stream : JSValue) (w : World) :
  ~ supported p ->
  resolve_and_dispatch ms model p u stream w =
    ([], Throw (Error ("Unsupported provider: " ++ p))).
Proof.
  intros Hp. unfold resolve_and_dispatch, bind.
  destruct (truthy u) eqn:Hu.
  - rewrite (resolve_user_key u _ w Hu), Hu. cbn [negb lift].
    rewrite (format_unsupported ms p Hp), (dispatch_unsupported _ _ _ _ p w Hp).
    reflexivity.
  - now rewrite (resolve_unsupported u p w Hu Hp).
Qed.

(** With the caller's key: no environment lookup, and the call carries it. *)
Lemma resolve_and_dispatch_user_key (ms : list JSValue) (model : JSValue)
    (p : string) (u stream : JSValue) (w : World) :
  supported p -> truthy u = true ->
  fst (resolve_and_dispatch ms model p u stream w) =
    match formatMessagesForProvider ms (JStr p), printed_key p u with
    | Ok fm, Ok ks => [Fetch (endpoint p) (init_for p (JArr fm) model u ks stream)]
    | _, _ => []
    end.
Proof.
  intros Hp Hu. unfold resolve_and_dispatch.
  rewrite log_bind, (resolve_user_key u _ w Hu). cbn [fst snd app].
  rewrite Hu. cbn [negb]. rewrite log_bind. cbn [lift fst snd app].
  destruct (formatMessagesForProvider ms (JStr p)) as [fm | e]; [|reflexivity].
  apply log_dispatch, Hp.
Qed.

(** Without it, with a secret [k] in the environment: one lookup, and the
    call carries [k]. *)
Lemma resolve_and_dispatch_secret (ms : list JSValue) (model : JSValue)
    (p : string) (u stream : JSValue) (w : World) (k : string) :
  supported p -> truthy u = false ->
  env w (secret_name p) = Some k -> k <> "" ->
  fst (resolve_and_dispatch ms model p u stream w) =
    EnvGet (secret_name p) ::
    match formatMessagesForProvider ms (JStr p) with
    | Ok fm => [Fetch (endpoint p) (init_for p (JArr fm) model (JStr k) k stream)]
    | Throw _ => []
    end.
Proof.
  intros Hp Hu Hk Hne. unfold resolve_and_dispatch.
  rewrite log_bind, (resolve_env u p w Hu Hp). unfold env_get at 1 2.
  cbn [fst snd app]. rewrite Hk, (truthy_JStr k Hne). cbn [negb].
  rewrite log_bind. cbn [lift fst snd app]. f_equal.
  destruct (formatMessagesForProvider ms (JStr p)) as [fm | e]; [|reflexivity].
  rewrite (log_dispatch _ _ _ _ p w Hp).
  destruct Hp as [-> | [-> | ->]]; reflexivity.
Qed.

(** With neither: one lookup, then the error, and no call. *)
Lemma resolve_and_dispatch_no_key (ms : list JSValue) (model : JSValue)
    (p : string) (u stream : JSValue) (w : World) :
  supported p -> truthy u = false ->
  env w (secret_name p) = None \/ env w (secret_name p) = Some "" ->
  resolve_and_dispatch ms model p u stream w =
    ([EnvGet (secret_name p)],
     Throw (Error ("API key not found for provider: " ++ p))).
Proof.
  intros Hp Hu Hk. unfold resolve_and_dispatch, bind.
  rewrite (resolve_env u p w Hu Hp). unfold env_get.
  destruct Hk as [-> | ->]; reflexivity.
Qed.

(** ** C6: a provider outside the registry *)

(** C6: a request naming a provider other than openai, claude and mistral
    makes [route] throw with an empty log, so neither an environment secret
    was looked up nor an upstream call made; and when the request is
    otherwise in order (a non-empty list of messages, a model), the error is
    "Unsupported provider: " followed by the name. *)
Theorem unsupported_provider (req : Request) (w : World) (body : JSValue) (p : string) :
  req_json req = Ok body -> opt_get body "provider" = JStr p -> ~ supported p ->
  (exists e, route req w = ([], Throw e))
  /\ env_lookups (fst (route req w)) = []
  /\ fetches (fst (route req w)) = []
  /\ (forall ms, opt_get body "messages" = JArr ms -> ms <> [] ->
        truthy (opt_get body "model") = true -> p <> "" ->
        route req w = ([], Throw (Error ("Unsupported provider: " ++ p)))).
Proof.
  intros Hj Hp Hn.
  assert (Hb : nullish body = false).
  { destruct (nullish body) eqn:E; [|reflexivity].
    rewrite opt_get_nullish in Hp by assumption. discriminate. }
  assert (A : exists e, route req w = ([], Throw e)).
  { unfold route. rewrite Hj, bind_lift_ok, (destructure_readable body Hb), bind_lift_ok.
    cbn [d_messages d_model d_provider d_stream d_userApiKey].
    destruct (_ || _ || _); [eexists; reflexivity|].
    destruct (_ || _); [eexists; reflexivity|].
    rewrite Hp. eexists.
    exact (resolve_and_dispatch_unsupported _ _ p _ _ w Hn). }
  split; [exact A|]. destruct A as [e E].
  split; [now rewrite E|]. split; [now rewrite E|].
  intros ms Hm Hne Hmodel Hpne.
  rewrite (route_valid req w body ms p Hj Hm Hne Hmodel Hp Hpne).
  now apply resolve_and_dispatch_unsupported.
Qed.

Lemma unsupported_provider_witness :
  route (post (request_body [msg "user" "hi"] "command-r" "cohere"))
        (with_secret "OPENAI_API_KEY" "sk-1" (mock (Throw (TypeError "fetch failed"))))
    = ([], Throw (Error "Unsupported provider: cohere")).
Proof.
  apply (unsupported_provider
           (post (request_body [msg "user" "hi"] "command-r" "cohere"))
           (with_secret "OPENAI_API_KEY" "sk-1" (mock (Throw (TypeError "fetch failed"))))
           (request_body [msg "user" "hi"] "command-r" "cohere") "cohere"
           eq_refl eq_refl) with (ms := [msg "user" "hi"]);
    try reflexivity; try discriminate.
  intros [H | [H | H]]; discriminate.
Defined.

(** ** C7: credential resolution *)

(** C7: for a request to a supported provider that passed validation, the
    credential is resolved first match first.  A supplied (truthy)
    [userApiKey] is used: no environment lookup happens and the one call
    made carries it.  Otherwise the environment secret bound to the provider
    is looked up and, when it is set and not empty, the one call carries it.
    When neither exists [route] throws "API key not found for provider: "
    followed by the name, which the specification calls MissingCredential,
    and no upstream call is made. *)
Theorem credential_resolution (req : Request) (w : World) (body : JSValue)
    (ms : list JSValue) (p : string) :
  req_json req = Ok body ->
  opt_get body "messages" = JArr ms -> ms <> [] ->
  truthy (opt_get body "model") = true ->
  opt_get body "provider" = JStr p -> supported p ->
  (readable ms ->
   exists fm, formatMessagesForProvider ms (JStr p) = Ok fm /\
   (forall ks, truthy (opt_get body "userApiKey") = true ->
      printed_key p (opt_get body "userApiKey") = Ok ks ->
      fst (route req w) =
        [Fetch (endpoint p)
           (init_for p (JArr fm) (opt_get body "model") (opt_get body "userApiKey") ks
              (with_default (opt_get body "stream") (JBool false)))])
   /\ (forall k, truthy (opt_get body "userApiKey") = false ->
         env w (secret_name p) = Some k -> k <> "" ->
         fst (route req w) =
           [EnvGet (secret_name p);
            Fetch (endpoint p)
              (init_for p (JArr fm) (opt_get body "model") (JStr k) k
                 (with_default (opt_get body "stream") (JBool false)))]))
  /\ (truthy (opt_get body "userApiKey") = true ->
      env_lookups (fst (route req w)) = [])
  /\ (truthy (opt_get body "userApiKey") = false ->
      env w (secret_name p) = None \/ env w (secret_name p) = Some "" ->
      route req w =
        ([EnvGet (secret_name p)],
         Throw (Error ("API key not found for provider: " ++ p)))
      /\ fetches (fst (route req w)) = []).
Proof.
  intros Hj Hm Hne Hmodel Hp Hs.
  rewrite (route_valid req w body ms p Hj Hm Hne Hmodel Hp (supported_nonempty p Hs)).
  split; [|split].
  - intros Hr. eexists. split; [exact (format_supported p ms Hr Hs)|]. split.
    + intros ks Hu Hk.
      rewrite (resolve_and_dispatch_user_key ms _ p _ _ w Hs Hu).
      now rewrite (format_supported p ms Hr Hs), Hk.
    + intros k Hu Hk Hkne.
      rewrite (resolve_and_dispatch_secret ms _ p _ _ w k Hs Hu Hk Hkne).
      now rewrite (format_supported p ms Hr Hs).
  - intros Hu. rewrite (resolve_and_dispatch_user_key ms _ p _ _ w Hs Hu).
    destruct (formatMessagesForProvider ms (JStr p)); [|reflexivity].
    now destruct (printed_key p (opt_get body "userApiKey")).
  - intros Hu Hk.
    rewrite (resolve_and_dispatch_no_key ms _ p _ _ w Hs Hu Hk).
    split; reflexivity.
Qed.

Lemma credential_resolution_witness :
  fst (route (post (JObj [("messages", JArr [msg "user" "hi"]); ("model", JStr "gpt-4");
                          ("provider", JStr "openai"); ("userApiKey", JStr "sk-mine")]))
         (with_secret "OPENAI_API_KEY" "sk-env" (mock (Throw (TypeError "fetch failed")))))
    = [Fetch "https://api.openai.com/v1/chat/completions"
         (bearer_init (JArr [msg "user" "hi"]) (JStr "gpt-4") "sk-mine" (JBool false))]
  /\ fst (route (post (request_body [msg "user" "hi"] "gpt-4" "openai"))
         (with_secret "OPENAI_API_KEY" "sk-env" (mock (Throw (TypeError "fetch failed")))))
    = [EnvGet "OPENAI_API_KEY";
       Fetch "https://api.openai.com/v1/chat/completions"
         (bearer_init (JArr [msg "user" "hi"]) (JStr "gpt-4") "sk-env" (JBool false))]
  /\ route (post (request_body [msg "user" "hi"] "gpt-4" "openai"))
         (mock (Throw (TypeError "fetch failed")))
    = ([EnvGet "OPENAI_API_KEY"],
       Throw (Error "API key not found for provider: openai")).
Proof.
  split; [|split].
  - destruct (credential_resolution
      (post (JObj [("messages", JArr [msg "user" "hi"]); ("model", JStr "gpt-4");
                   ("provider", JStr "openai"); ("userApiKey", JStr "sk-mine")]))
      (with_secret "OPENAI_API_KEY" "sk-env" (mock (Throw (TypeError "fetch failed"))))
      _ [msg "user" "hi"] "openai" eq_refl eq_refl
      ltac:(discriminate) eq_refl eq_refl
      (or_introl eq_refl)) as (F & _ & _).
    destruct F as (fm & E & H & _); [repeat constructor|].
    vm_compute in E. injection E as <-.
    exact (H "sk-mine" eq_refl eq_refl).
  - destruct (credential_resolution
      (post (request_body [msg "user" "hi"] "gpt-4" "openai"))
      (with_secret "OPENAI_API_KEY" "sk-env" (mock (Throw (TypeError "fetch failed"))))
      _ [msg "user" "hi"] "openai" eq_refl eq_refl
      ltac:(discriminate) eq_refl eq_refl
      (or_introl eq_refl)) as (F & _ & _).
    destruct F as (fm & E & _ & H); [repeat constructor|].
    vm_compute in E. injection E as <-.
    apply (H "sk-env" eq_refl eq_refl). discriminate.
  - destruct (credential_resolution
      (post (request_body [msg "user" "hi"] "gpt-4" "openai"))
      (mock (Throw (TypeError "fetch failed")))
      _ [msg "user" "hi"] "openai" eq_refl eq_refl
      ltac:(discriminate) eq_refl eq_refl
      (or_introl eq_refl)) as (_ & _ & H).
    apply H; [reflexivity | left; reflexivity].
Defined.

(** ** C8: the canonical result *)

Lemma ok_2xx (r : UpstreamResponse) : 200 <= up_status r <= 299 -> ok r = true.
Proof. intros H. unfold ok. apply andb_true_intro. split; apply Z.leb_le; lia. Qed.

Lemma nullish_opt_get (v : JSValue) (k : string) :
  nullish (opt_get v k) = false -> nullish v = false.
Proof. destruct v; simpl; intros H; try discriminate; reflexivity. Qed.

(** The success branch of the three calls. *)
Lemma dispatch_success (fm model stream : JSValue) (p k : string) (w : World)
    (r : UpstreamResponse) (data : JSValue) :
  supported p ->
  (forall url init, fetch w url init = Ok r) ->
  ok r = true -> up_json r = Ok data ->
  nullish (opt_get data (content_list p)) = false ->
  snd (dispatch fm model (JStr p) (JStr k) stream w) =
    Ok (JObj [("content", or_else (extract_content p data) (JStr ""));
              ("usage", opt_get data "usage");
              ("model", opt_get data "model")]).
Proof.
  intros Hp Hf Hok Hj Hl.
  assert (Hd : nullish data = false) by exact (nullish_opt_get _ _ Hl).
  destruct Hp as [-> | [-> | ->]];
    cbn [dispatch strict_eq_str String.eqb Ascii.eqb Bool.eqb];
    unfold content_list in Hl; cbn [String.eqb Ascii.eqb Bool.eqb] in Hl;
    unfold callOpenAI, callClaude, callMistral, bind, do_fetch, lift, ret;
    cbn [to_string]; rewrite Hf, Hok, Hj; cbn [negb];
    rewrite !(get_opt_get data) by assumption;
    rewrite get_opt_get by assumption;
    reflexivity.
Qed.

Lemma resolve_result (u : JSValue) (p k : string) (w : World) :
  supported p -> k <> "" ->
  u = JStr k \/ (truthy u = false /\ env w (secret_name p) = Some k) ->
  snd (resolveApiKey u (JStr p) w) = Ok (JStr k).
Proof.
  intros Hp Hk [-> | [Hu He]].
  - now rewrite resolve_user_key by (now apply truthy_JStr).
  - rewrite (resolve_env u p w Hu Hp). unfold env_get. now rewrite He.
Qed.

(** C8: for each of the three providers, when the upstream answers a valid
    request with a 2xx status and a body carrying its list ([choices], or
    [content] for claude), [route] returns the canonical object: as content
    [choices[0].message.content] (for claude [content[0].text]), or the empty
    string when that is missing, and the body's [usage] and [model] as they
    are.  On the specification's openai body this is content "hi", usage
    [{total_tokens: 3}] and model "gpt-4". *)
Theorem canonical_result (req : Request) (w : World) (body : JSValue)
    (ms : list JSValue) (p k : string) (r : UpstreamResponse) (data : JSValue) :
  req_json req = Ok body ->
  opt_get body "messages" = JArr ms -> ms <> [] -> readable ms ->
  truthy (opt_get body "model") = true ->
  opt_get body "provider" = JStr p -> supported p ->
  k <> "" ->
  opt_get body "userApiKey" = JStr k
  \/ (truthy (opt_get body "userApiKey") = false /\ env w (secret_name p) = Some k) ->
  (forall url init, fetch w url init = Ok r) ->
  200 <= up_status r <= 299 -> up_json r = Ok data ->
  nullish (opt_get data (content_list p)) = false ->
  snd (route req w) =
    Ok (JObj [("content", or_else (extract_content p data) (JStr ""));
              ("usage", opt_get data "usage");
              ("model", opt_get data "model")])
  /\ (data = openai_sample -> p <> "claude" ->
      snd (route req w) =
        Ok (JObj [("content", JStr "hi");
                  ("usage", JObj [("total_tokens", JNum "3")]);
                  ("model", JStr "gpt-4")])).
Proof.
  intros Hj Hm Hne Hr Hmodel Hp Hs Hk Hkey Hf Hst Hdata Hl.
  assert (E : snd (route req w) =
    Ok (JObj [("content", or_else (extract_content p data) (JStr ""));
              ("usage", opt_get data "usage");
              ("model", opt_get data "model")])).
  { rewrite (route_valid req w body ms p Hj Hm Hne Hmodel Hp (supported_nonempty p Hs)).
    unfold resolve_and_dispatch.
    rewrite result_bind, (resolve_result _ p k w Hs Hk Hkey), (truthy_JStr k Hk).
    cbn [negb]. rewrite result_bind. cbn [lift snd].
    rewrite (format_supported p ms Hr Hs).
    exact (dispatch_success _ _ _ p k w r data Hs Hf (ok_2xx r Hst) Hdata Hl). }
  split; [exact E|].
  intros -> Hnc. rewrite E. unfold extract_content.
  destruct Hs as [-> | [-> | ->]]; [reflexivity | contradiction | reflexivity].
Qed.

Lemma canonical_result_witness :
  snd (route (post (request_body [msg "user" "hello"] "gpt-4" "openai"))
         (with_secret "OPENAI_API_KEY" "sk-env" (answers 200 openai_sample)))
    = Ok (JObj [("content", JStr "hi");
                ("usage", JObj [("total_tokens", JNum "3")]);
                ("model", JStr "gpt-4")])
  /\ snd (route (post (request_body [msg "user" "hello"] "mistral-large" "mistral"))
         (with_secret "MISTRAL_API_KEY" "sk-env" (answers 200 openai_sample)))
    = Ok (JObj [("content", JStr "hi");
                ("usage", JObj [("total_tokens", JNum "3")]);
                ("model", JStr "gpt-4")])
  /\ snd (route (post (request_body [msg "user" "hello"] "claude-3-opus" "claude"))
         (with_secret "ANTHROPIC_API_KEY" "sk-env" (answers 200 claude_sample)))
    = Ok (JObj [("content", JStr "hi");
                ("usage", JObj [("total_tokens", JNum "3")]);
                ("model", JStr "claude-3-opus")]).
Proof.
  split; [|split].
  - apply (canonical_result
      (post (request_body [msg "user" "hello"] "gpt-4" "openai"))
      (with_secret "OPENAI_API_KEY" "sk-env" (answers 200 openai_sample))
      _ [msg "user" "hello"] "openai" "sk-env"
      {| up_status := 200; up_json := Ok openai_sample |} openai_sample
      eq_refl eq_refl ltac:(discriminate) ltac:(repeat constructor) eq_refl eq_refl
      (or_introl eq_refl) ltac:(discriminate) (or_intror (conj eq_refl eq_refl))
      (fun _ _ => eq_refl) ltac:(simpl; lia) eq_refl eq_refl);
      [reflexivity | discriminate].
  - apply (canonical_result
      (post (request_body [msg "user" "hello"] "mistral-large" "mistral"))
      (with_secret "MISTRAL_API_KEY" "sk-env" (answers 200 openai_sample))
      _ [msg "user" "hello"] "mistral" "sk-env"
      {| up_status := 200; up_json := Ok openai_sample |} openai_sample
      eq_refl eq_refl ltac:(discriminate) ltac:(repeat constructor) eq_refl eq_refl
      (or_intror (or_intror eq_refl)) ltac:(discriminate)
      (or_intror (conj eq_refl eq_refl))
      (fun _ _ => eq_refl) ltac:(simpl; lia) eq_refl eq_refl);
      [reflexivity | discriminate].
  - exact (proj1 (canonical_result
      (post (request_body [msg "user" "hello"] "claude-3-opus" "claude"))
      (with_secret "ANTHROPIC_API_KEY" "sk-env" (answers 200 claude_sample))
      _ [msg "user" "hello"] "claude" "sk-env"
      {| up_status := 200; up_json := Ok claude_sample |} claude_sample
      eq_refl eq_refl ltac:(discriminate) ltac:(repeat constructor) eq_refl eq_refl
      (or_intror (or_introl eq_refl)) ltac:(discriminate)
      (or_intror (conj eq_refl eq_refl))
      (fun _ _ => eq_refl) ltac:(simpl; lia) eq_refl eq_refl)).
Defined.

(** ** The upstream call, when there is one *)

Lemma route_unfold (req : Request) (w : World) (body : JSValue) :
  req_json req = Ok body -> nullish body = false ->
  route req w =
    if negb (truthy (opt_get body "messages")) || negb (isArray (opt_get body "messages"))
       || (List.length (elements (opt_get body "messages")) =? 0)%nat
    then ([], Throw (Error "Messages array is required"))
    else if negb (truthy (opt_get body "model")) || negb (truthy (opt_get body "provider"))
    then ([], Throw (Error "Model and provider are required"))
    else
      bind (resolveApiKey (opt_get body "userApiKey") (opt_get body "provider"))
        (fun apiKey =>
           if negb (truthy apiKey)
           then throw_about "API key not found for provider: " (opt_get body "provider")
           else
             bind (lift (formatMessagesForProvider (elements (opt_get body "messages"))
                           (opt_get body "provider")))
               (fun fm => dispatch (JArr fm) (opt_get body "model")
                            (opt_get body "provider") apiKey
                            (with_default (opt_get body "stream") (JBool false)))) w.
Proof.
  intros Hj Hb. unfold route.
  rewrite Hj, bind_lift_ok, (destructure_readable body Hb), bind_lift_ok.
  cbn [d_messages d_model d_provider d_stream d_userApiKey].
  destruct (_ || _ || _); [reflexivity|].
  destruct (_ || _); reflexivity.
Qed.

(** A provider value that matches none of the three [case] labels reaches
    neither the environment nor the network. *)
Lemma quiet_outside_registry (ms : list JSValue) (model prov u stream : JSValue) :
  strict_eq_str prov "openai" = false ->
  strict_eq_str prov "claude" = false ->
  strict_eq_str prov "mistral" = false ->
  quiet (bind (resolveApiKey u prov)
           (fun apiKey =>
              if negb (truthy apiKey)
              then throw_about "API key not found for provider: " prov
              else
                bind (lift (formatMessagesForProvider ms prov))
                  (fun fm => dispatch (JArr fm) model prov apiKey stream))).
Proof.
  intros H1 H2 H3. unfold resolveApiKey, dispatch. rewrite H1, H2, H3.
  apply quiet_bind; [auto with quiet|].
  intros a. apply quiet_if; [auto with quiet|].
  apply quiet_bind; auto with quiet.
Qed.

(** What the [init] of a call holds. *)
Lemma init_for_shape (p : string) (fm model key : JSValue) (ks : string) (stream : JSValue) :
  supported p ->
  fi_method (init_for p fm model key ks stream) = "POST"
  /\ opt_get (fi_body (init_for p fm model key ks stream)) "messages" = fm
  /\ opt_get (fi_body (init_for p fm model key ks stream)) "model" = model
  /\ opt_get (fi_body (init_for p fm model key ks stream)) "stream" = stream
  /\ (p = "claude" ->
      lookup_field "x-api-key" (fi_headers (init_for p fm model key ks stream)) = key
      /\ lookup_field "anthropic-version" (fi_headers (init_for p fm model key ks stream))
         = JStr "2023-06-01"
      /\ opt_get (fi_body (init_for p fm model key ks stream)) "max_tokens" = JNum "4000")
  /\ (p <> "claude" ->
      lookup_field "Authorization" (fi_headers (init_for p fm model key ks stream))
        = JStr ("Bearer " ++ ks)).
Proof.
  intros [-> | [-> | ->]]; repeat split; try reflexivity;
    try discriminate; try contradiction.
Qed.

(** Whatever the request and the world, [route] makes no upstream call or
    exactly one, and that one is a POST to the endpoint of the request's
    provider, with the provider's headers and body. *)
Lemma at_most_one_dispatch (req : Request) (w : World) :
  fetches (fst (route req w)) = []
  \/ exists body p fm key url init,
       req_json req = Ok body
       /\ opt_get body "provider" = JStr p /\ supported p
       /\ formatMessagesForProvider (elements (opt_get body "messages")) (JStr p) = Ok fm
       /\ (key = opt_get body "userApiKey"
           \/ exists k, env w (secret_name p) = Some k /\ key = JStr k)
       /\ truthy key = true
       /\ fetches (fst (route req w)) = [(url, init)]
       /\ url = endpoint p
       /\ fi_method init = "POST"
       /\ opt_get (fi_body init) "messages" = JArr fm
       /\ opt_get (fi_body init) "model" = opt_get body "model"
       /\ (p = "claude" ->
           lookup_field "x-api-key" (fi_headers init) = key
           /\ lookup_field "anthropic-version" (fi_headers init) = JStr "2023-06-01"
           /\ opt_get (fi_body init) "max_tokens" = JNum "4000")
       /\ (p <> "claude" ->
           exists ks, to_string key = Ok ks
             /\ lookup_field "Authorization" (fi_headers init) = JStr ("Bearer " ++ ks)).
Proof.
  destruct (req_json req) as [body | e] eqn:Hj;
    [|left; unfold route; now rewrite Hj].
  destruct (nullish body) eqn:Hb.
  { left. unfold route, destructure. rewrite Hj, bind_lift_ok, Hb. reflexivity. }
  rewrite (route_unfold req w body Hj Hb).
  destruct (_ || _ || _); [now left|].
  destruct (_ || _); [now left|].
  set (ms := elements (opt_get body "messages")).
  set (model := opt_get body "model").
  set (u := opt_get body "userApiKey").
  set (stream := with_default (opt_get body "stream") (JBool false)).
  assert (Out : forall prov,
    strict_eq_str prov "openai" = false ->
    strict_eq_str prov "claude" = false ->
    strict_eq_str prov "mistral" = false ->
    fetches (fst (bind (resolveApiKey u prov)
      (fun apiKey =>
         if negb (truthy apiKey)
         then throw_about "API key not found for provider: " prov
         else bind (lift (formatMessagesForProvider ms prov))
                (fun fm => dispatch (JArr fm) model prov apiKey stream)) w)) = []).
  { intros prov H1 H2 H3.
    now rewrite (quiet_outside_registry ms model prov u stream H1 H2 H3 w). }
  destruct (opt_get body "provider") as [| | b | n | p | l | fs] eqn:Hp;
    try (left; now apply Out).
  destruct (supported_dec p) as [Hs | (E1 & E2 & E3)]; [|left; now apply Out].
  clear Out.
  change (bind _ _ w) with (resolve_and_dispatch ms model p u stream w).
  destruct (truthy u) eqn:Hu.
  - rewrite (resolve_and_dispatch_user_key ms model p u stream w Hs Hu).
    destruct (formatMessagesForProvider ms (JStr p)) as [fm | e] eqn:Hf; [|now left].
    destruct (printed_key p u) as [ks | e] eqn:Hk; [|now left].
    right. exists body, p, fm, u, (endpoint p), (init_for p (JArr fm) model u ks stream).
    destruct (init_for_shape p (JArr fm) model u ks stream Hs)
      as (I1 & I2 & I3 & _ & I5 & I6).
    repeat (split; [first [assumption | reflexivity | now left]|]).
    intros Hnc. exists ks. split; [|now apply I6].
    unfold printed_key in Hk.
    destruct (String.eqb_spec p "claude"); [contradiction | assumption].
  - destruct (env w (secret_name p)) as [k|] eqn:He.
    + destruct (String.eqb_spec k "") as [-> | Hk].
      * left. rewrite (resolve_and_dispatch_no_key ms model p u stream w Hs Hu);
          [reflexivity | now right].
      * rewrite (resolve_and_dispatch_secret ms model p u stream w k Hs Hu He Hk).
        destruct (formatMessagesForProvider ms (JStr p)) as [fm | e] eqn:Hf; [|now left].
        right.
        exists body, p, fm, (JStr k), (endpoint p),
          (init_for p (JArr fm) model (JStr k) k stream).
        destruct (init_for_shape p (JArr fm) model (JStr k) k stream Hs)
          as (I1 & I2 & I3 & _ & I5 & I6).
        repeat (split; [first [assumption | reflexivity
                              | right; exists k; now split
                              | now apply truthy_JStr]|]).
        intros Hnc. exists k. split; [reflexivity | now apply I6].
    + left. rewrite (resolve_and_dispatch_no_key ms model p u stream w Hs Hu);
        [reflexivity | now left].
Qed.

(** ** C2: a success body without its list *)

(** C2, at the failing inputs: the upstream answers 200 with the parseable
    body [{}].  For openai and mistral [data.choices] is [undefined] and
    [data.choices[0]] throws; for claude [data.content[0]] does.  The optional
    chaining starts one step too late, so [route] throws a [TypeError] and the
    handler answers 500 where an empty content was to be returned. *)
Theorem missing_list_throws :
  snd (route (post (request_body [msg "user" "hello"] "gpt-4" "openai"))
         (with_secret "OPENAI_API_KEY" "sk-env" (answers 200 (JObj []))))
    = Throw (TypeError "Cannot read properties of undefined (reading '0')")
  /\ snd (route (post (request_body [msg "user" "hello"] "mistral-large" "mistral"))
         (with_secret "MISTRAL_API_KEY" "sk-env" (answers 200 (JObj []))))
    = Throw (TypeError "Cannot read properties of undefined (reading '0')")
  /\ snd (route (post (request_body [msg "user" "hello"] "claude-3-opus" "claude"))
         (with_secret "ANTHROPIC_API_KEY" "sk-env" (answers 200 (JObj []))))
    = Throw (TypeError "Cannot read properties of undefined (reading '0')")
  /\ res_status
       (snd (handler (post (request_body [msg "user" "hello"] "gpt-4" "openai"))
               (with_secret "OPENAI_API_KEY" "sk-env" (answers 200 (JObj [])))))
     = 500.
Proof. repeat split. Qed.

(** ** C4: the provider field of the envelope *)

(** C4, at the failing input: a request naming openai, with no key and no
    secret, fails with status 500 and the uniform envelope, but the
    envelope's [provider] is "unknown": the [catch] block reads
    [req.provider] off the [Request] object, which has no such property,
    while the name sits in the parsed body. *)
Theorem envelope_provider_unknown :
  opt_get (request_body [msg "user" "hi"] "gpt-4" "openai") "provider" = JStr "openai"
  /\ snd (handler (post (request_body [msg "user" "hi"] "gpt-4" "openai"))
            (mock (Throw (TypeError "fetch failed"))))
     = {| res_status := 500;
          res_headers := jsonHeaders;
          res_body :=
            Some (JObj [("error",
                         JObj [("code", JStr "CHAT_COMPLETION_FAILED");
                               ("message", JStr "API key not found for provider: openai");
                               ("provider", JStr "unknown")])]) |}.
Proof. split; reflexivity. Qed.

(** ** C10: the code field of the envelope *)

(** C10: whenever [route] throws, whatever the error, the handler answers
    500 with the envelope whose [code] is the constant
    "CHAT_COMPLETION_FAILED"; the error shows in [message] only. *)
Theorem error_code_constant (req : Request) (w : World) (e : JsError) :
  req_method req <> "OPTIONS" ->
  snd (route req w) = Throw e ->
  res_status (snd (handler req w)) = 500
  /\ res_body (snd (handler req w)) = Some (envelope e)
  /\ opt_get (opt_get (envelope e) "error") "code" = JStr "CHAT_COMPLETION_FAILED"
  /\ opt_get (opt_get (envelope e) "error") "message" = JStr (message e).
Proof.
  intros Hm He. unfold handler.
  destruct (String.eqb_spec (req_method req) "OPTIONS") as [E | _]; [contradiction|].
  destruct (route req w) as [log [v | e']]; simpl in He; [discriminate|].
  injection He as ->. repeat split.
Qed.

Lemma error_code_constant_witness :
  (* InvalidRequest *)
  res_body (snd (handler (post (request_body [] "gpt-4" "openai"))
                   (mock (Throw (TypeError "fetch failed")))))
    = Some (envelope (Error "Messages array is required"))
  (* UnsupportedProvider *)
  /\ res_body (snd (handler (post (request_body [msg "user" "hi"] "command-r" "cohere"))
                      (mock (Throw (TypeError "fetch failed")))))
    = Some (envelope (Error "Unsupported provider: cohere"))
  (* MissingCredential *)
  /\ res_body (snd (handler (post (request_body [msg "user" "hi"] "gpt-4" "openai"))
                      (mock (Throw (TypeError "fetch failed")))))
    = Some (envelope (Error "API key not found for provider: openai"))
  (* UpstreamError *)
  /\ res_body (snd (handler (post (request_body [msg "user" "hi"] "gpt-4" "openai"))
                      (with_secret "OPENAI_API_KEY" "sk-env"
                         (answers 401 (JObj [("error",
                                              JObj [("message", JStr "invalid key")])])))))
    = Some (envelope (Error "OpenAI API error: invalid key"))
  (* TransportError *)
  /\ res_body (snd (handler (post (request_body [msg "user" "hi"] "gpt-4" "openai"))
                      (with_secret "OPENAI_API_KEY" "sk-env"
                         (mock (Throw (TypeError "fetch failed"))))))
    = Some (envelope (TypeError "fetch failed")).
Proof.
  refine (conj _ (conj _ (conj _ (conj _ _)))).
  - apply (error_code_constant (post (request_body [] "gpt-4" "openai"))
             (mock (Throw (TypeError "fetch failed")))
             (Error "Messages array is required")); [discriminate | reflexivity].
  - apply (error_code_constant (post (request_body [msg "user" "hi"] "command-r" "cohere"))
             (mock (Throw (TypeError "fetch failed")))
             (Error "Unsupported provider: cohere")); [discriminate | reflexivity].
  - apply (error_code_constant (post (request_body [msg "user" "hi"] "gpt-4" "openai"))
             (mock (Throw (TypeError "fetch failed")))
             (Error "API key not found for provider: openai"));
      [discriminate | reflexivity].
  - apply (error_code_constant (post (request_body [msg "user" "hi"] "gpt-4" "openai"))
             (with_secret "OPENAI_API_KEY" "sk-env"
                (answers 401 (JObj [("error", JObj [("message", JStr "invalid key")])])))
             (Error "OpenAI API error: invalid key")); [discriminate | reflexivity].
  - apply (error_code_constant (post (request_body [msg "user" "hi"] "gpt-4" "openai"))
             (with_secret "OPENAI_API_KEY" "sk-env" (mock (Throw (TypeError "fetch failed"))))
             (TypeError "fetch failed")); [discriminate | reflexivity].
Defined.

(** * Further properties of the handler *)

(** ** Responses *)

Lemma fetches_app (l1 l2 : list Event) :
  fetches (l1 ++ l2) = (fetches l1 ++ fetches l2)%list.
Proof.
  induction l1 as [|ev l1 IH]; [reflexivity|].
  destruct ev; simpl; now rewrite IH.
Qed.

Lemma env_lookups_app (l1 l2 : list Event) :
  env_lookups (l1 ++ l2) = (env_lookups l1 ++ env_lookups l2)%list.
Proof.
  induction l1 as [|ev l1 IH]; [reflexivity|].
  destruct ev; simpl; now rewrite IH.
Qed.

(** X1: every response of the handler, preflight, success or failure,
    carries the five CORS headers, and its status is 200 or 500.  A preflight
    ([OPTIONS]) is answered 200 with those headers alone and no body, without
    reading the request body, the environment or the network; every other
    response is JSON with a body. *)
Theorem cors_on_every_response (req : Request) (w : World) :
  (forall h, In h corsHeaders -> In h (res_headers (snd (handler req w))))
  /\ (res_status (snd (handler req w)) = 200 \/ res_status (snd (handler req w)) = 500)
  /\ (req_method req = "OPTIONS" ->
      handler req w =
        ([], {| res_status := 200; res_headers := corsHeaders; res_body := None |}))
  /\ (req_method req <> "OPTIONS" ->
      res_headers (snd (handler req w)) = jsonHeaders
      /\ res_body (snd (handler req w)) <> None).
Proof.
  unfold handler.
  destruct (String.eqb_spec (req_method req) "OPTIONS") as [E | E].
  - cbn [snd res_headers res_status]. split; [auto|]. split; [auto|].
    split; [reflexivity | contradiction].
  - destruct (route req w) as [log [v | e]]; cbn [snd res_headers res_status res_body];
      (split; [intros h Hh; unfold jsonHeaders; apply in_or_app; now left|]);
      (split; [auto|]); (split; [contradiction|]); intros _;
      (split; [reflexivity | discriminate]).
Qed.

(** X2: outside a preflight the handler makes exactly the upstream calls and
    environment lookups of its [try] block.  When the block returns [v] the
    answer is 200 with body [v] and nothing more is logged; when it throws
    [e] the answer is 500 and [console.error] is logged once, last. *)
Theorem handler_log (req : Request) (w : World) :
  req_method req <> "OPTIONS" ->
  fetches (fst (handler req w)) = fetches (fst (route req w))
  /\ env_lookups (fst (handler req w)) = env_lookups (fst (route req w))
  /\ (forall v, snd (route req w) = Ok v ->
        handler req w =
          (fst (route req w),
           {| res_status := 200; res_headers := jsonHeaders; res_body := Some v |}))
  /\ (forall e, snd (route req w) = Throw e ->
        fst (handler req w) =
          (fst (route req w) ++ [ConsoleError "Chat completion error:" e])%list
        /\ res_status (snd (handler req w)) = 500).
Proof.
  intros Hm. unfold handler.
  destruct (String.eqb_spec (req_method req) "OPTIONS") as [E | _]; [contradiction|].
  destruct (route req w) as [log [v | e]]; cbn [fst snd].
  - split; [reflexivity|]. split; [reflexivity|]. split.
    + intros v' Hv. now injection Hv as ->.
    + discriminate.
  - rewrite fetches_app, env_lookups_app. cbn [fetches env_lookups].
    rewrite !app_nil_r. split; [reflexivity|]. split; [reflexivity|]. split.
    + discriminate.
    + intros e' He. injection He as ->. split; reflexivity.
Qed.

Lemma handler_log_witness :
  fst (handler (post (request_body [msg "user" "hi"] "gpt-4" "openai"))
         (with_secret "OPENAI_API_KEY" "sk-env" (unreachable (TypeError "fetch failed"))))
    = [EnvGet "OPENAI_API_KEY";
       Fetch "https://api.openai.com/v1/chat/completions"
         (bearer_init (JArr [msg "user" "hi"]) (JStr "gpt-4") "sk-env" (JBool false));
       ConsoleError "Chat completion error:" (TypeError "fetch failed")].
Proof.
  destruct (handler_log (post (request_body [msg "user" "hi"] "gpt-4" "openai"))
              (with_secret "OPENAI_API_KEY" "sk-env"
                 (unreachable (TypeError "fetch failed")))
              ltac:(discriminate)) as (_ & _ & _ & H).
  exact (proj1 (H (TypeError "fetch failed") eq_refl)).
Defined.

(** ** Request bodies that are not an object *)

Lemma find_all_false {A} (f : A -> bool) (l : list A) :
  (forall x, f x = false) -> find f l = None.
Proof.
  intros H. induction l as [|x l IH]; [reflexivity|].
  simpl. now rewrite H.
Qed.

Lemma show_nat_not_messages (i : nat) : show_nat i <> "messages".
Proof. unfold show_nat. destruct (Nat.to_uint i); simpl; discriminate. Qed.

Lemma messages_of_non_object (body : JSValue) :
  (forall fs, body <> JObj fs) -> opt_get body "messages" = JUndefined.
Proof.
  assert (I : forall n, index_of_key "messages" n = None).
  { intros n. apply find_all_false. intros i.
    apply String.eqb_neq, show_nat_not_messages. }
  intros H. destruct body as [| | b | r | t | l | fs]; try reflexivity.
  - cbn [opt_get]. unfold string_prop. now rewrite I.
  - cbn [opt_get]. unfold array_prop. now rewrite I.
  - now destruct (H fs).
Qed.

(** X3: a request whose body is not a JSON object never reaches the
    environment or the network.  When [req.json()] rejects, its error is the
    one thrown; a body of [null] throws the [TypeError] of the destructuring;
    any other body that is not an object (a number, a string, a boolean, an
    array) is rejected with "Messages array is required". *)
Theorem body_not_an_object (req : Request) (w : World) :
  (forall e, req_json req = Throw e -> route req w = ([], Throw e))
  /\ (req_json req = Ok JNull ->
      route req w =
        ([], Throw (TypeError
           "Cannot destructure property 'messages' of '(intermediate value)' as it is null.")))
  /\ (forall body, req_json req = Ok body -> body <> JNull -> body <> JUndefined ->
        (forall fs, body <> JObj fs) ->
        route req w = ([], Throw (Error "Messages array is required"))).
Proof.
  split; [|split].
  - intros e He. unfold route. now rewrite He.
  - intros He. unfold route. now rewrite He.
  - intros body He Hn Hu Ho.
    assert (Hb : nullish body = false) by (destruct body; try reflexivity; contradiction).
    rewrite (route_unfold req w body He Hb), (messages_of_non_object body Ho).
    reflexivity.
Qed.

(** ** A provider that is not a string *)

(** X4: in a request otherwise in order, a provider that is truthy but not a
    string (a number, [true], an array, an object) matches no [case] label:
    [route] throws "Unsupported provider: " followed by the provider as a
    template literal prints it, with no environment lookup and no upstream
    call, whether or not a key was supplied.  So the array [["openai"]] is
    refused as "Unsupported provider: openai". *)
Theorem provider_not_a_string (req : Request) (w : World) (body : JSValue)
    (ms : list JSValue) (s : string) :
  req_json req = Ok body ->
  opt_get body "messages" = JArr ms -> ms <> [] ->
  truthy (opt_get body "model") = true ->
  truthy (opt_get body "provider") = true ->
  (forall p, opt_get body "provider" <> JStr p) ->
  to_string (opt_get body "provider") = Ok s ->
  route req w = ([], Throw (Error ("Unsupported provider: " ++ s))).
Proof.
  intros Hj Hm Hne Hmodel Hp Hns Hs.
  assert (Hb : nullish body = false).
  { destruct (nullish body) eqn:E; [|reflexivity].
    rewrite opt_get_nullish in Hm by assumption. discriminate. }
  rewrite (route_unfold req w body Hj Hb), Hm, Hmodel, Hp.
  cbn [truthy isArray elements negb orb]. rewrite length_eqb_0 by assumption.
  assert (Hc : forall lit, strict_eq_str (opt_get body "provider") lit = false).
  { intros lit. destruct (opt_get body "provider"); try reflexivity.
    now destruct (Hns s0). }
  unfold resolveApiKey, dispatch, formatMessagesForProvider, throw_about.
  rewrite !Hc. unfold bind, lift, ret, throw.
  destruct (truthy (opt_get body "userApiKey")) eqn:Hu; cbn [negb].
  - rewrite Hu. cbn [negb]. now rewrite Hs.
  - now rewrite Hs.
Qed.

Lemma provider_not_a_string_witness :
  route (post (JObj [("messages", JArr [msg "user" "hi"]); ("model", JStr "gpt-4");
                     ("provider", JArr [JStr "openai"]); ("userApiKey", JStr "sk-mine")]))
        (with_secret "OPENAI_API_KEY" "sk-env" (unreachable (TypeError "fetch failed")))
    = ([], Throw (Error "Unsupported provider: openai")).
Proof.
  apply (provider_not_a_string
           (post (JObj [("messages", JArr [msg "user" "hi"]); ("model", JStr "gpt-4");
                        ("provider", JArr [JStr "openai"]);
                        ("userApiKey", JStr "sk-mine")]))
           (with_secret "OPENAI_API_KEY" "sk-env" (unreachable (TypeError "fetch failed")))
           _ [msg "user" "hi"] "openai" eq_refl eq_refl
           ltac:(discriminate) eq_refl eq_refl ltac:(discriminate) eq_refl).
Defined.

(** ** The shape of the log *)

(** Every run of [route], by the key it used. *)
Lemma route_log_cases (req : Request) (w : World) :
  fst (route req w) = []
  \/ exists body p,
       req_json req = Ok body
       /\ opt_get body "provider" = JStr p /\ supported p
       /\ ((truthy (opt_get body "userApiKey") = true
            /\ exists fm ks,
                 fst (route req w) =
                   [Fetch (endpoint p)
                      (init_for p (JArr fm) (opt_get body "model")
                         (opt_get body "userApiKey") ks
                         (with_default (opt_get body "stream") (JBool false)))])
           \/ (truthy (opt_get body "userApiKey") = false
               /\ (fst (route req w) = [EnvGet (secret_name p)]
                   \/ exists fm k,
                        env w (secret_name p) = Some k
                        /\ fst (route req w) =
                             [EnvGet (secret_name p);
                              Fetch (endpoint p)
                                (init_for p (JArr fm) (opt_get body "model") (JStr k) k
                                   (with_default (opt_get body "stream")
                                      (JBool false)))]))).
Proof.
  destruct (req_json req) as [body | e] eqn:Hj;
    [|left; unfold route; now rewrite Hj].
  destruct (nullish body) eqn:Hb.
  { left. unfold route, destructure. rewrite Hj, bind_lift_ok, Hb. reflexivity. }
  rewrite (route_unfold req w body Hj Hb).
  destruct (_ || _ || _); [now left|].
  destruct (_ || _); [now left|].
  set (ms := elements (opt_get body "messages")).
  set (model := opt_get body "model").
  set (u := opt_get body "userApiKey").
  set (stream := with_default (opt_get body "stream") (JBool false)).
  assert (Out : forall prov,
    strict_eq_str prov "openai" = false ->
    strict_eq_str prov "claude" = false ->
    strict_eq_str prov "mistral" = false ->
    fst (bind (resolveApiKey u prov)
      (fun apiKey =>
         if negb (truthy apiKey)
         then throw_about "API key not found for provider: " prov
         else bind (lift (formatMessagesForProvider ms prov))
                (fun fm => dispatch (JArr fm) model prov apiKey stream)) w) = []).
  { intros prov H1 H2 H3.
    exact (quiet_outside_registry ms model prov u stream H1 H2 H3 w). }
  destruct (opt_get body "provider") as [| | b | n | p | l | fs] eqn:Hp;
    try (left; now apply Out).
  destruct (supported_dec p) as [Hs | (E1 & E2 & E3)]; [|left; now apply Out].
  clear Out.
  change (bind _ _ w) with (resolve_and_dispatch ms model p u stream w).
  destruct (truthy u) eqn:Hu.
  - rewrite (resolve_and_dispatch_user_key ms model p u stream w Hs Hu).
    destruct (formatMessagesForProvider ms (JStr p)) as [fm | e]; [|now left].
    destruct (printed_key p u) as [ks | e]; [|now left].
    right. exists body, p. repeat (split; [assumption || reflexivity|]).
    left. split; [exact Hu|]. now exists fm, ks.
  - right. exists body, p. repeat (split; [assumption || reflexivity|]).
    right. split; [exact Hu|].
    destruct (env w (secret_name p)) as [k|] eqn:He.
    + destruct (String.eqb_spec k "") as [-> | Hk].
      * left. rewrite (resolve_and_dispatch_no_key ms model p u stream w Hs Hu);
          [reflexivity | now right].
      * rewrite (resolve_and_dispatch_secret ms model p u stream w k Hs Hu He Hk).
        destruct (formatMessagesForProvider ms (JStr p)) as [fm | e]; [|now left].
        right. now exists fm, k.
    + left. rewrite (resolve_and_dispatch_no_key ms model p u stream w Hs Hu);
        [reflexivity | now left].
Qed.

(** X5: the log of [route] has one of four shapes: nothing, one upstream
    call, one environment lookup, or one lookup followed by one call.  So
    there is at most one lookup, it comes before the call, and nothing follows
    the call (no retry).  A lookup happens only when the caller's key is
    absent or falsy and the provider is one of the three, and it reads that
    provider's secret and no other variable. *)
Theorem route_log_shape (req : Request) (w : World) :
  (fst (route req w) = []
   \/ (exists url init, fst (route req w) = [Fetch url init])
   \/ (exists name, fst (route req w) = [EnvGet name])
   \/ (exists name url init, fst (route req w) = [EnvGet name; Fetch url init]))
  /\ (forall name, In name (env_lookups (fst (route req w))) ->
        exists body p,
          req_json req = Ok body
          /\ opt_get body "provider" = JStr p /\ supported p
          /\ truthy (opt_get body "userApiKey") = false
          /\ name = secret_name p).
Proof.
  destruct (route_log_cases req w)
    as [E | (body & p & Hj & Hp & Hs & [(Hu & fm & ks & E) | (Hu & [E | (fm & k & _ & E)])])];
    rewrite E.
  - split; [now left|]. intros name [].
  - split; [right; left; eauto|]. intros name [].
  - split; [right; right; left; eauto|].
    intros name [<- | []]. now exists body, p.
  - split; [right; right; right; eauto|].
    intros name [<- | []]. now exists body, p.
Qed.

(** ** The stream flag *)

(** X6: in every upstream call, the object handed to [JSON.stringify] as
    the body has for [stream] the request's own [stream] value, and [false]
    when the request has none; a [null] stays [null], the default of the
    destructuring applying to a missing field only.  This is about the object
    the call builds, not about the text [JSON.stringify] writes for it. *)
Theorem stream_forwarded (req : Request) (w : World) (url : string) (init : FetchInit) :
  In (Fetch url init) (fst (route req w)) ->
  exists body,
    req_json req = Ok body
    /\ opt_get (fi_body init) "stream"
       = with_default (opt_get body "stream") (JBool false)
    /\ (opt_get body "stream" = JUndefined ->
        opt_get (fi_body init) "stream" = JBool false)
    /\ (opt_get body "stream" <> JUndefined ->
        opt_get (fi_body init) "stream" = opt_get body "stream").
Proof.
  intros Hin.
  assert (A : exists body p fm model key ks,
    req_json req = Ok body /\ supported p
    /\ init = init_for p fm model key ks
                (with_default (opt_get body "stream") (JBool false))).
  { destruct (route_log_cases req w)
      as [E | (body & p & Hj & Hp & Hs & [(Hu & fm & ks & E) | (Hu & [E | (fm & k & _ & E)])])];
      rewrite E in Hin.
    - destruct Hin.
    - destruct Hin as [H | []]. injection H as _ <-. now eauto 10.
    - destruct Hin as [H | []]. discriminate.
    - destruct Hin as [H | [H | []]]; [discriminate|].
      injection H as _ <-. now eauto 10. }
  destruct A as (body & p & fm & model & key & ks & Hj & Hs & ->).
  exists body. split; [exact Hj|].
  destruct (init_for_shape p fm model key ks
              (with_default (opt_get body "stream") (JBool false)) Hs)
    as (_ & _ & _ & I4 & _).
  rewrite I4. split; [reflexivity|]. split.
  - now intros ->.
  - intros Hn. destruct (opt_get body "stream"); try reflexivity. contradiction.
Qed.

Lemma stream_forwarded_witness :
  exists init,
    fst (route (post (JObj [("messages", JArr [msg "user" "hi"]); ("model", JStr "gpt-4");
                            ("provider", JStr "openai"); ("stream", JNull);
                            ("userApiKey", JStr "sk-mine")]))
           (unreachable (TypeError "fetch failed")))
      = [Fetch "https://api.openai.com/v1/chat/completions" init]
    /\ opt_get (fi_body init) "stream" = JNull.
Proof.
  exists (bearer_init (JArr [msg "user" "hi"]) (JStr "gpt-4") "sk-mine" JNull).
  split; [reflexivity|].
  destruct (stream_forwarded
              (post (JObj [("messages", JArr [msg "user" "hi"]); ("model", JStr "gpt-4");
                           ("provider", JStr "openai"); ("stream", JNull);
                           ("userApiKey", JStr "sk-mine")]))
              (unreachable (TypeError "fetch failed"))
              "https://api.openai.com/v1/chat/completions"
              (bearer_init (JArr [msg "user" "hi"]) (JStr "gpt-4") "sk-mine" JNull)
              (or_introl eq_refl)) as (body & Hj & _ & _ & H).
  injection Hj as <-. apply H. discriminate.
Defined.

(** ** What the upstream answers *)

(** A request in order, with a key [k], reaches the provider call. *)
Lemma route_with_key (req : Request) (w : World) (body : JSValue)
    (ms : list JSValue) (p k : string) :
  req_json req = Ok body ->
  opt_get body "messages" = JArr ms -> ms <> [] -> readable ms ->
  truthy (opt_get body "model") = true ->
  opt_get body "provider" = JStr p -> supported p ->
  k <> "" ->
  opt_get body "userApiKey" = JStr k
  \/ (truthy (opt_get body "userApiKey") = false /\ env w (secret_name p) = Some k) ->
  snd (route req w) =
    snd (dispatch (JArr (map (formatted_for p) ms)) (opt_get body "model") (JStr p)
           (JStr k) (with_default (opt_get body "stream") (JBool false)) w)
  /\ fetches (fst (route req w)) =
       [(endpoint p,
         init_for p (JArr (map (formatted_for p) ms)) (opt_get body "model") (JStr k) k
           (with_default (opt_get body "stream") (JBool false)))].
Proof.
  intros Hj Hm Hne Hr Hmodel Hp Hs Hk Hkey.
  rewrite (route_valid req w body ms p Hj Hm Hne Hmodel Hp (supported_nonempty p Hs)).
  split.
  - unfold resolve_and_dispatch.
    rewrite result_bind, (resolve_result _ p k w Hs Hk Hkey), (truthy_JStr k Hk).
    cbn [negb]. rewrite result_bind. cbn [lift snd].
    now rewrite (format_supported p ms Hr Hs).
  - destruct Hkey as [Hu | [Hu He]].
    + rewrite (resolve_and_dispatch_user_key ms _ p _ _ w Hs); rewrite Hu;
        [|now apply truthy_JStr].
      rewrite (format_supported p ms Hr Hs).
      destruct Hs as [-> | [-> | ->]]; reflexivity.
    + rewrite (resolve_and_dispatch_secret ms _ p _ _ w k Hs Hu He Hk).
      now rewrite (format_supported p ms Hr Hs).
Qed.

Lemma dispatch_unreachable (fm model stream : JSValue) (p k : string) (w : World)
    (e : JsError) :
  supported p -> (forall url init, fetch w url init = Throw e) ->
  snd (dispatch fm model (JStr p) (JStr k) stream w) = Throw e.
Proof.
  intros Hp Hf.
  destruct Hp as [-> | [-> | ->]];
    cbn [dispatch strict_eq_str String.eqb Ascii.eqb Bool.eqb];
    unfold callOpenAI, callClaude, callMistral, bind, do_fetch, lift;
    cbn [to_string]; now rewrite Hf.
Qed.

Lemma dispatch_not_ok (fm model stream : JSValue) (p k : string) (w : World)
    (r : UpstreamResponse) :
  supported p -> (forall url init, fetch w url init = Ok r) -> ok r = false ->
  snd (dispatch fm model (JStr p) (JStr k) stream w) =
    snd (@upstream_failure JSValue (provider_label p) r w).
Proof.
  intros Hp Hf Hok.
  destruct Hp as [-> | [-> | ->]];
    cbn [dispatch strict_eq_str String.eqb Ascii.eqb Bool.eqb provider_label];
    unfold callOpenAI, callClaude, callMistral;
    cbn [to_string]; rewrite ?bind_lift_ok;
    rewrite result_bind; unfold do_fetch at 1; cbn [snd];
    now rewrite Hf, Hok.
Qed.

Lemma dispatch_json_rejects (fm model stream : JSValue) (p k : string) (w : World)
    (r : UpstreamResponse) (e : JsError) :
  supported p -> (forall url init, fetch w url init = Ok r) -> up_json r = Throw e ->
  snd (dispatch fm model (JStr p) (JStr k) stream w) = Throw e.
Proof.
  intros Hp Hf Hj.
  destruct Hp as [-> | [-> | ->]];
    cbn [dispatch strict_eq_str String.eqb Ascii.eqb Bool.eqb];
    unfold callOpenAI, callClaude, callMistral, upstream_failure, bind, do_fetch, lift;
    cbn [to_string]; rewrite Hf; destruct (ok r); cbn [negb]; now rewrite Hj.
Qed.

Lemma upstream_failure_result (name : string) (r : UpstreamResponse) (w : World)
    (errorData : JSValue) :
  up_json r = Ok errorData -> nullish errorData = false ->
  snd (@upstream_failure JSValue name r w) =
    match to_string (failure_detail errorData) with
    | Ok detail => Throw (Error (name ++ " API error: " ++ detail))
    | Throw e => Throw e
    end.
Proof.
  intros Hj Hn. unfold upstream_failure, failure_detail.
  rewrite Hj, bind_lift_ok, (get_opt_get errorData "error" Hn), bind_lift_ok.
  unfold bind, lift, throw.
  now destruct (to_string _).
Qed.

Lemma not_ok (r : UpstreamResponse) :
  up_status r < 200 \/ 299 < up_status r -> ok r = false.
Proof.
  intros H. unfold ok. apply andb_false_iff.
  destruct H; [left | right]; apply Z.leb_gt; lia.
Qed.

Lemma in_order_route (req : Request) (w : World) (body : JSValue)
    (ms : list JSValue) (p k : string) :
  in_order req w body ms p k ->
  supported p
  /\ snd (route req w) =
       snd (dispatch (JArr (map (formatted_for p) ms)) (opt_get body "model") (JStr p)
              (JStr k) (with_default (opt_get body "stream") (JBool false)) w)
  /\ fetches (fst (route req w)) = [call_of body ms p k].
Proof.
  intros (Hj & Hm & Hne & Hr & Hmodel & Hp & Hs & Hk & Hkey).
  split; [exact Hs|].
  exact (route_with_key req w body ms p k Hj Hm Hne Hr Hmodel Hp Hs Hk Hkey).
Qed.

Lemma hello_in_order (p : string) (w : World) :
  supported p -> in_order (post (hello_body p)) w (hello_body p) [msg "user" "hello"] p "sk-mine".
Proof.
  intros Hs. unfold in_order, readable.
  split; [reflexivity|]. split; [reflexivity|]. split; [discriminate|].
  split; [repeat constructor|]. split; [reflexivity|]. split; [reflexivity|].
  split; [exact Hs|]. split; [discriminate|]. now left.
Qed.

(** X7: the upstream is called once, whatever it answers.  For every
    request in order and every world, the log of [route] holds exactly one
    call, to the provider's endpoint with the formatted messages, the model
    and the key; and when [fetch] rejects, the rejection itself is what
    [route] throws: there is no retry and no wrapping. *)
Theorem one_attempt (req : Request) (w : World) (body : JSValue)
    (ms : list JSValue) (p k : string) :
  in_order req w body ms p k ->
  fetches (fst (route req w)) = [call_of body ms p k]
  /\ (forall e, (forall url init, fetch w url init = Throw e) ->
        snd (route req w) = Throw e).
Proof.
  intros H. destruct (in_order_route req w body ms p k H) as (Hs & E & F).
  split; [exact F|]. intros e Hf. rewrite E.
  now apply dispatch_unreachable.
Qed.

Lemma one_attempt_witness :
  fetches (fst (route (post (hello_body "claude")) (unreachable (TypeError "fetch failed"))))
    = [("https://api.anthropic.com/v1/messages",
        claude_init (JArr [msg "human" "hello"]) (JStr "m-1") (JStr "sk-mine")
          (JBool false))]
  /\ snd (route (post (hello_body "claude")) (unreachable (TypeError "fetch failed")))
     = Throw (TypeError "fetch failed").
Proof.
  destruct (one_attempt (post (hello_body "claude"))
              (unreachable (TypeError "fetch failed")) (hello_body "claude")
              [msg "user" "hello"] "claude" "sk-mine"
              (hello_in_order "claude" _ (or_intror (or_introl eq_refl))))
    as [F T].
  split; [exact F|]. apply T. reflexivity.
Defined.

(** X8: a response outside 2xx whose body parses to a value other than
    [null] makes [route] throw "<Name> API error: " followed by the body's
    [error.message] when that is a non-empty string, and by "Unknown error"
    when [error] or its [message] is missing or falsy; <Name> is OpenAI,
    Claude or Mistral. *)
Theorem upstream_error_message (req : Request) (w : World) (body : JSValue)
    (ms : list JSValue) (p k : string) (r : UpstreamResponse) (errorData : JSValue) :
  in_order req w body ms p k ->
  (forall url init, fetch w url init = Ok r) ->
  up_status r < 200 \/ 299 < up_status r ->
  up_json r = Ok errorData -> nullish errorData = false ->
  (forall m, opt_get (opt_get errorData "error") "message" = JStr m -> m <> "" ->
     snd (route req w) = Throw (Error (provider_label p ++ " API error: " ++ m)))
  /\ (truthy (opt_get (opt_get errorData "error") "message") = false ->
      snd (route req w) =
        Throw (Error (provider_label p ++ " API error: Unknown error"))).
Proof.
  intros H Hf Hst Hj Hn.
  destruct (in_order_route req w body ms p k H) as (Hs & E & _).
  rewrite E, (dispatch_not_ok _ _ _ p k w r Hs Hf (not_ok r Hst)).
  rewrite (upstream_failure_result _ r w errorData Hj Hn).
  unfold failure_detail, or_else. split.
  - intros m Hm Hne. now rewrite Hm, (truthy_JStr m Hne).
  - intros Hm. now rewrite Hm.
Qed.

Lemma upstream_error_message_witness :
  snd (route (post (hello_body "mistral"))
         (answers 401 (JObj [("error", JObj [("message", JStr "invalid key")])])))
    = Throw (Error "Mistral API error: invalid key")
  /\ snd (route (post (hello_body "claude")) (answers 503 (JObj [("error", JNull)])))
     = Throw (Error "Claude API error: Unknown error").
Proof.
  split.
  - apply (upstream_error_message (post (hello_body "mistral"))
             (answers 401 (JObj [("error", JObj [("message", JStr "invalid key")])]))
             (hello_body "mistral") [msg "user" "hello"] "mistral" "sk-mine"
             {| up_status := 401;
                up_json := Ok (JObj [("error", JObj [("message", JStr "invalid key")])]) |}
             (JObj [("error", JObj [("message", JStr "invalid key")])])
             (hello_in_order "mistral" _ (or_intror (or_intror eq_refl)))
             (fun _ _ => eq_refl) ltac:(simpl; lia) eq_refl eq_refl);
      [reflexivity | discriminate].
  - apply (upstream_error_message (post (hello_body "claude"))
             (answers 503 (JObj [("error", JNull)]))
             (hello_body "claude") [msg "user" "hello"] "claude" "sk-mine"
             {| up_status := 503; up_json := Ok (JObj [("error", JNull)]) |}
             (JObj [("error", JNull)])
             (hello_in_order "claude" _ (or_intror (or_introl eq_refl)))
             (fun _ _ => eq_refl) ltac:(simpl; lia) eq_refl eq_refl).
    reflexivity.
Defined.

(** X9: when [response.json()] rejects, on a success or a failure status
    alike, [route] throws that rejection as it is: a non-2xx answer whose body
    is not JSON surfaces the parser's error, not an "API error" message.  A
    body that parses to [null] makes [route] throw a [TypeError]. *)
Theorem upstream_body_rejected (req : Request) (w : World) (body : JSValue)
    (ms : list JSValue) (p k : string) (r : UpstreamResponse) :
  in_order req w body ms p k ->
  (forall url init, fetch w url init = Ok r) ->
  (forall e, up_json r = Throw e -> snd (route req w) = Throw e)
  /\ (up_json r = Ok JNull -> exists m, snd (route req w) = Throw (TypeError m)).
Proof.
  intros H Hf.
  destruct (in_order_route req w body ms p k H) as (Hs & E & _).
  rewrite E. split.
  - intros e He. now apply (dispatch_json_rejects _ _ _ p k w r e).
  - intros Hj. destruct (ok r) eqn:Hok.
    + destruct Hs as [-> | [-> | ->]];
        cbn [dispatch strict_eq_str String.eqb Ascii.eqb Bool.eqb];
        unfold callOpenAI, callClaude, callMistral, bind, do_fetch, lift;
        cbn [to_string]; rewrite Hf, Hok, Hj; cbn [negb get snd]; eauto.
    + rewrite (dispatch_not_ok _ _ _ p k w r Hs Hf Hok).
      unfold upstream_failure, bind, lift. rewrite Hj. cbn [get snd]. eauto.
Qed.

Lemma upstream_body_rejected_witness :
  snd (route (post (hello_body "openai"))
         (mock (Ok {| up_status := 502;
                      up_json := Throw (SyntaxError "Unexpected token <") |})))
    = Throw (SyntaxError "Unexpected token <").
Proof.
  apply (upstream_body_rejected (post (hello_body "openai"))
           (mock (Ok {| up_status := 502;
                        up_json := Throw (SyntaxError "Unexpected token <") |}))
           (hello_body "openai") [msg "user" "hello"] "openai" "sk-mine"
           {| up_status := 502; up_json := Throw (SyntaxError "Unexpected token <") |}
           (hello_in_order "openai" _ (or_introl eq_refl)) (fun _ _ => eq_refl)).
  reflexivity.
Defined.

(** X10: the empty-string default.  On a 2xx answer whose list ([choices],
    or [content] for claude) is present, the content of the result is the
    empty string whenever the text the router looks for is missing or falsy:
    an empty list, a first element without [message] or [text], a [null] or
    empty content.  [usage] and [model] are still passed on. *)
Theorem empty_content_default (req : Request) (w : World) (body : JSValue)
    (ms : list JSValue) (p k : string) (r : UpstreamResponse) (data : JSValue) :
  in_order req w body ms p k ->
  (forall url init, fetch w url init = Ok r) ->
  200 <= up_status r <= 299 -> up_json r = Ok data ->
  (nullish (opt_get data (content_list p)) = false ->
   truthy (extract_content p data) = false ->
   snd (route req w) =
     Ok (JObj [("content", JStr ""); ("usage", opt_get data "usage");
               ("model", opt_get data "model")]))
  /\ (opt_get data (content_list p) = JArr [] ->
      snd (route req w) =
        Ok (JObj [("content", JStr ""); ("usage", opt_get data "usage");
                  ("model", opt_get data "model")])).
Proof.
  intros H Hf Hst Hj.
  destruct (in_order_route req w body ms p k H) as (Hs & E & _).
  assert (A : nullish (opt_get data (content_list p)) = false ->
              truthy (extract_content p data) = false ->
              snd (route req w) =
                Ok (JObj [("content", JStr ""); ("usage", opt_get data "usage");
                          ("model", opt_get data "model")])).
  { intros Hl Ht.
    rewrite E, (dispatch_success _ _ _ p k w r data Hs Hf (ok_2xx r Hst) Hj Hl).
    unfold or_else. now rewrite Ht. }
  split; [exact A|].
  intros Hl. apply A; [now rewrite Hl|].
  unfold extract_content. unfold content_list in Hl.
  destruct (String.eqb p "claude"); now rewrite Hl.
Qed.

Lemma empty_content_default_witness :
  snd (route (post (hello_body "openai"))
         (answers 200 (JObj [("choices", JArr []); ("model", JStr "gpt-4")])))
    = Ok (JObj [("content", JStr ""); ("usage", JUndefined); ("model", JStr "gpt-4")]).
Proof.
  apply (empty_content_default (post (hello_body "openai"))
           (answers 200 (JObj [("choices", JArr []); ("model", JStr "gpt-4")]))
           (hello_body "openai") [msg "user" "hello"] "openai" "sk-mine"
           {| up_status := 200;
              up_json := Ok (JObj [("choices", JArr []); ("model", JStr "gpt-4")]) |}
           (JObj [("choices", JArr []); ("model", JStr "gpt-4")])
           (hello_in_order "openai" _ (or_introl eq_refl))
           (fun _ _ => eq_refl) ltac:(simpl; lia) eq_refl).
  reflexivity.
Defined.

(** ** More on the message transformer *)

Lemma formatted_for_fields (p : string) (m : JSValue) (k : string) :
  k <> "role" -> k <> "content" -> opt_get (formatted_for p m) k = JUndefined.
Proof.
  intros Hr Hc. apply not_eq_sym, String.eqb_neq in Hr.
  apply not_eq_sym, String.eqb_neq in Hc.
  unfold formatted_for. destruct (String.eqb p "claude");
    cbn [for_claude copied opt_get]; unfold lookup_field; cbn [find_field];
    now rewrite Hr, Hc.
Qed.

(** X11: for a supported provider, each formatted message is an object with
    the two properties [role] and [content] and no other: whatever else a
    message carried (an id, a timestamp, metadata) is not sent upstream, and
    its content is sent as it was. *)
Theorem only_role_and_content (p : string) (ms : list JSValue) :
  supported p -> readable ms ->
  exists out,
    formatMessagesForProvider ms (JStr p) = Ok out
    /\ List.length out = List.length ms
    /\ forall i m, nth_error ms i = Some m ->
         exists o role, nth_error out i = Some o
           /\ o = JObj [("role", role); ("content", opt_get m "content")]
           /\ forall k, k <> "role" -> k <> "content" -> opt_get o k = JUndefined.
Proof.
  intros Hs Hr. exists (map (formatted_for p) ms).
  split; [exact (format_supported p ms Hr Hs)|]. split; [apply length_map|].
  intros i m Hi. exists (formatted_for p m).
  exists (opt_get (formatted_for p m) "role").
  split; [now apply map_nth_error|]. split.
  - unfold formatted_for. now destruct (String.eqb p "claude").
  - intros k. apply formatted_for_fields.
Qed.

Lemma only_role_and_content_witness :
  formatMessagesForProvider
    [JObj [("id", JStr "7f3a"); ("role", JStr "user"); ("content", JStr "hi");
           ("timestamp", JStr "2024-01-01T00:00:00Z");
           ("metadata", JObj [("attachments", JArr [])])]]
    (JStr "openai")
  = Ok [msg "user" "hi"].
Proof.
  destruct (only_role_and_content "openai"
              [JObj [("id", JStr "7f3a"); ("role", JStr "user"); ("content", JStr "hi");
                     ("timestamp", JStr "2024-01-01T00:00:00Z");
                     ("metadata", JObj [("attachments", JArr [])])]]
              (or_introl eq_refl) ltac:(repeat constructor)) as (out & E & _).
  rewrite E. vm_compute in E. now injection E as <-.
Defined.

Lemma readable_formatted (p : string) (ms : list JSValue) :
  readable (map (formatted_for p) ms).
Proof.
  unfold readable. apply Forall_map, Forall_forall. intros m _.
  unfold formatted_for. now destruct (String.eqb p "claude").
Qed.

(** X12: how the transformations compose, on readable messages.  Formatting
    for openai and formatting for mistral give the same list, and each is
    idempotent: formatting that list again, for either, gives it back.
    Formatting it for claude gives what formatting for claude gives directly.
    Formatting for claude is not idempotent: a second pass finds [human]
    where [user] was and sends every message as [assistant]. *)
Theorem formatting_composes (ms : list JSValue) :
  readable ms ->
  exists a c c2,
    formatMessagesForProvider ms (JStr "openai") = Ok a
    /\ formatMessagesForProvider ms (JStr "mistral") = Ok a
    /\ formatMessagesForProvider ms (JStr "claude") = Ok c
    /\ formatMessagesForProvider a (JStr "openai") = Ok a
    /\ formatMessagesForProvider a (JStr "mistral") = Ok a
    /\ formatMessagesForProvider a (JStr "claude") = Ok c
    /\ formatMessagesForProvider c (JStr "openai") = Ok c
    /\ formatMessagesForProvider c (JStr "mistral") = Ok c
    /\ formatMessagesForProvider c (JStr "claude") = Ok c2
    /\ List.length c2 = List.length ms
    /\ forall o, In o c2 -> opt_get o "role" = JStr "assistant".
Proof.
  intros Hr.
  exists (map copied ms), (map for_claude ms), (map for_claude (map for_claude ms)).
  assert (Ra : readable (map copied ms)) by exact (readable_formatted "openai" ms).
  assert (Rc : readable (map for_claude ms)) by exact (readable_formatted "claude" ms).
  split; [apply format_copy; auto|]. split; [apply format_copy; auto|].
  split; [now apply format_claude|].
  split; [|split; [|split; [|split; [|split; [|split; [|split]]]]]].
  - rewrite format_copy by auto. now rewrite map_map.
  - rewrite format_copy by auto. now rewrite map_map.
  - rewrite format_claude by assumption. now rewrite map_map.
  - rewrite format_copy by auto. now rewrite map_map.
  - rewrite format_copy by auto. now rewrite map_map.
  - now apply format_claude.
  - now rewrite !length_map.
  - intros o Ho. rewrite map_map in Ho. apply in_map_iff in Ho as (m & <- & _).
    rewrite for_claude_role, for_claude_role.
    now destruct (strict_eq_str (opt_get m "role") "user").
Qed.

Lemma formatting_composes_witness :
  exists c2,
    formatMessagesForProvider [msg "human" "hi"; msg "assistant" "hello"] (JStr "claude")
      = Ok c2
    /\ c2 = [msg "assistant" "hi"; msg "assistant" "hello"].
Proof.
  destruct (formatting_composes [msg "user" "hi"; msg "assistant" "hello"]
              ltac:(repeat constructor))
    as (a & c & c2 & _ & _ & Ec & _ & _ & _ & _ & _ & Ec2 & _).
  vm_compute in Ec. injection Ec as <-.
  exists c2. split; [exact Ec2|].
  vm_compute in Ec2. now injection Ec2 as <-.
Defined.

Lemma format_null_message (p : string) (ms : list JSValue) :
  supported p -> Exists (fun m => nullish m = true) ms ->
  exists t, formatMessagesForProvider ms (JStr p) = Throw (TypeError t).
Proof.
  intros Hs Hex.
  assert (A : forall f : JSValue -> result JSValue,
    (forall m, nullish m = true -> exists t, f m = Throw (TypeError t)) ->
    (forall m, nullish m = false -> exists o, f m = Ok o) ->
    exists t, map_result f ms = Throw (TypeError t)).
  { intros f Hnull Hobj. induction ms as [|m ms IH]; [inversion Hex|].
    cbn [map_result]. destruct (nullish m) eqn:Hm.
    - destruct (Hnull m Hm) as [t ->]. now exists t.
    - destruct (Hobj m Hm) as [o ->]. cbn [rbind].
      inversion Hex as [? ? Hx | ? ? Hx]; subst; [congruence|].
      destruct (IH Hx) as [t ->]. now exists t. }
  assert (Nc : forall m, nullish m = true -> exists t, copy_message m = Throw (TypeError t)).
  { intros m Hm. destruct m; try discriminate; cbn; eauto. }
  assert (Nl : forall m, nullish m = true ->
               exists t, claude_message m = Throw (TypeError t)).
  { intros m Hm. destruct m; try discriminate; cbn; eauto. }
  destruct Hs as [-> | [-> | ->]]; unfold formatMessagesForProvider;
    cbn [strict_eq_str String.eqb Ascii.eqb Bool.eqb]; apply A; auto;
    intros m Hm; eexists;
    first [exact (copy_message_readable m Hm) | exact (claude_message_readable m Hm)].
Qed.

(** X13: a [null] among the messages is never sent.  For a supported
    provider the transformer throws a [TypeError] on the first such message,
    and a request that carries one, in order otherwise, makes [route] throw
    without any upstream call, whichever key it would have used. *)
Theorem null_message_rejected (req : Request) (w : World) (body : JSValue)
    (ms : list JSValue) (p : string) :
  req_json req = Ok body ->
  opt_get body "messages" = JArr ms ->
  Exists (fun m => nullish m = true) ms ->
  truthy (opt_get body "model") = true ->
  opt_get body "provider" = JStr p -> supported p ->
  (exists t, formatMessagesForProvider ms (JStr p) = Throw (TypeError t))
  /\ fetches (fst (route req w)) = []
  /\ (exists e, snd (route req w) = Throw e)
  /\ (truthy (opt_get body "userApiKey") = true ->
      exists t, route req w = ([], Throw (TypeError t))).
Proof.
  intros Hj Hm Hex Hmodel Hp Hs.
  destruct (format_null_message p ms Hs Hex) as [t Ht].
  split; [now exists t|].
  assert (Hne : ms <> []) by (intros ->; inversion Hex).
  rewrite (route_valid req w body ms p Hj Hm Hne Hmodel Hp (supported_nonempty p Hs)).
  unfold resolve_and_dispatch.
  destruct (truthy (opt_get body "userApiKey")) eqn:Hu.
  - unfold bind. rewrite (resolve_user_key _ _ w Hu), Hu. cbn [negb lift].
    rewrite Ht. cbn [fst snd fetches]. split; [reflexivity|].
    split; [now exists (TypeError t)|]. intros _. now exists t.
  - unfold bind. rewrite (resolve_env _ p w Hu Hs). unfold env_get.
    destruct (env w (secret_name p)) as [k|].
    + destruct (truthy (JStr k)); cbn [negb lift throw_about bind lift to_string throw].
      * rewrite Ht. cbn [fst snd app fetches]. split; [reflexivity|].
        split; [eauto | discriminate].
      * cbn [fst snd app fetches]. split; [reflexivity|].
        split; [eauto | discriminate].
    + cbn [truthy negb throw_about bind lift to_string throw fst snd app fetches].
      split; [reflexivity|]. split; [eauto | discriminate].
Qed.

Lemma null_message_rejected_witness :
  route (post (JObj [("messages", JArr [msg "user" "hi"; JNull]); ("model", JStr "m-1");
                     ("provider", JStr "mistral"); ("userApiKey", JStr "sk-mine")]))
        (answers 200 openai_sample)
    = ([], Throw (TypeError "Cannot read properties of null (reading 'role')")).
Proof.
  destruct (null_message_rejected
              (post (JObj [("messages", JArr [msg "user" "hi"; JNull]);
                           ("model", JStr "m-1"); ("provider", JStr "mistral");
                           ("userApiKey", JStr "sk-mine")]))
              (answers 200 openai_sample) _ [msg "user" "hi"; JNull] "mistral"
              eq_refl eq_refl ltac:(right; left; reflexivity) eq_refl eq_refl
              (or_intror (or_intror eq_refl))) as (_ & _ & _ & H).
  destruct (H eq_refl) as [t E]. rewrite E.
  vm_compute in E. now injection E as <-.
Defined.

(** ** What a call holds, and nothing more *)

Lemma route_fetch_init (req : Request) (w : World) (url : string) (init : FetchInit) :
  In (Fetch url init) (fst (route req w)) ->
  exists p fm model key ks stream,
    supported p /\ url = endpoint p /\ init = init_for p fm model key ks stream.
Proof.
  intros Hin.
  destruct (route_log_cases req w)
    as [E | (body & p & Hj & Hp & Hs & [(Hu & fm & ks & E) | (Hu & [E | (fm & k & _ & E)])])];
    rewrite E in Hin.
  - destruct Hin.
  - destruct Hin as [H | []]. injection H as <- <-. now eauto 10.
  - destruct Hin as [H | []]. discriminate.
  - destruct Hin as [H | [H | []]]; [discriminate|].
    injection H as <- <-. now eauto 10.
Qed.

(** X14: every upstream call goes to one of the three endpoints as JSON, and
    holds nothing but what the provider is meant to get: its headers are
    [Authorization] and [Content-Type] (for claude [x-api-key],
    [Content-Type] and [anthropic-version]), and the properties of its body
    are [model], [messages] and [stream] (for claude with [max_tokens]
    second).  In particular the request's [provider] and [userApiKey] are
    never part of the body. *)
Theorem upstream_call_contents (req : Request) (w : World) (url : string)
    (init : FetchInit) :
  In (Fetch url init) (fst (route req w)) ->
  lookup_field "Content-Type" (fi_headers init) = JStr "application/json"
  /\ exists fields,
       fi_body init = JObj fields
       /\ ((url = "https://api.anthropic.com/v1/messages"
            /\ map fst (fi_headers init) = ["x-api-key"; "Content-Type"; "anthropic-version"]
            /\ map fst fields = ["model"; "max_tokens"; "messages"; "stream"])
           \/ ((url = "https://api.openai.com/v1/chat/completions"
                \/ url = "https://api.mistral.ai/v1/chat/completions")
               /\ map fst (fi_headers init) = ["Authorization"; "Content-Type"]
               /\ map fst fields = ["model"; "messages"; "stream"])).
Proof.
  intros Hin.
  destruct (route_fetch_init req w url init Hin)
    as (p & fm & model & key & ks & stream & Hs & -> & ->).
  destruct Hs as [-> | [-> | ->]]; (split; [reflexivity|]); eexists;
    (split; [reflexivity|]).
  - right. split; [now left|]. split; reflexivity.
  - left. split; [reflexivity|]. split; reflexivity.
  - right. split; [now right|]. split; reflexivity.
Qed.

Lemma upstream_call_contents_witness :
  exists fields,
    fi_body (bearer_init (JArr [msg "user" "hello"]) (JStr "m-1") "sk-mine" (JBool false))
      = JObj fields
    /\ map fst fields = ["model"; "messages"; "stream"].
Proof.
  destruct (upstream_call_contents (post (hello_body "openai"))
              (unreachable (TypeError "fetch failed"))
              "https://api.openai.com/v1/chat/completions"
              (bearer_init (JArr [msg "user" "hello"]) (JStr "m-1") "sk-mine" (JBool false))
              (or_introl eq_refl)) as (_ & fields & E & _).
  exists fields. split; [exact E|]. now injection E as <-.
Defined.

(** ** C9: the upstream call *)

(** C9: the upstream dispatch is a single HTTP POST.  Whatever the request
    and the world, [route] makes no upstream call or exactly one, a POST to
    the endpoint of the request's provider.  And a request in order, with key
    [k], does make that one call: its body holds the transformed messages and
    the requested model; for claude the key travels in [x-api-key], with the
    [anthropic-version] header, and the body holds [max_tokens: 4000]; for
    openai and mistral the key travels as [Authorization: Bearer <key>]. *)
Theorem upstream_dispatch (req : Request) (w : World) :
  (fetches (fst (route req w)) = []
   \/ exists body p fm key url init,
        req_json req = Ok body
        /\ opt_get body "provider" = JStr p /\ supported p
        /\ formatMessagesForProvider (elements (opt_get body "messages")) (JStr p) = Ok fm
        /\ (key = opt_get body "userApiKey"
            \/ exists k, env w (secret_name p) = Some k /\ key = JStr k)
        /\ truthy key = true
        /\ fetches (fst (route req w)) = [(url, init)]
        /\ url = endpoint p
        /\ fi_method init = "POST"
        /\ opt_get (fi_body init) "messages" = JArr fm
        /\ opt_get (fi_body init) "model" = opt_get body "model"
        /\ (p = "claude" ->
            lookup_field "x-api-key" (fi_headers init) = key
            /\ lookup_field "anthropic-version" (fi_headers init) = JStr "2023-06-01"
            /\ opt_get (fi_body init) "max_tokens" = JNum "4000")
        /\ (p <> "claude" ->
            exists ks, to_string key = Ok ks
              /\ lookup_field "Authorization" (fi_headers init)
                 = JStr ("Bearer " ++ ks)))
  /\ (forall body ms p k,
        in_order req w body ms p k ->
        exists fm init,
          formatMessagesForProvider ms (JStr p) = Ok fm
          /\ fetches (fst (route req w)) = [(endpoint p, init)]
          /\ fi_method init = "POST"
          /\ opt_get (fi_body init) "messages" = JArr fm
          /\ opt_get (fi_body init) "model" = opt_get body "model"
          /\ (p = "claude" ->
              endpoint p = "https://api.anthropic.com/v1/messages"
              /\ lookup_field "x-api-key" (fi_headers init) = JStr k
              /\ lookup_field "anthropic-version" (fi_headers init) = JStr "2023-06-01"
              /\ opt_get (fi_body init) "max_tokens" = JNum "4000")
          /\ (p = "openai" ->
              endpoint p = "https://api.openai.com/v1/chat/completions"
              /\ lookup_field "Authorization" (fi_headers init) = JStr ("Bearer " ++ k))
          /\ (p = "mistral" ->
              endpoint p = "https://api.mistral.ai/v1/chat/completions"
              /\ lookup_field "Authorization" (fi_headers init)
                 = JStr ("Bearer " ++ k))).
Proof.
  split; [exact (at_most_one_dispatch req w)|].
  intros body ms p k H.
  destruct (in_order_route req w body ms p k H) as (Hs & _ & F).
  destruct H as (_ & _ & _ & Hr & _).
  exists (map (formatted_for p) ms), (snd (call_of body ms p k)).
  split; [exact (format_supported p ms Hr Hs)|].
  split; [exact F|].
  unfold call_of. cbn [snd].
  destruct Hs as [-> | [-> | ->]];
    (split; [reflexivity|]); (split; [reflexivity|]); (split; [reflexivity|]);
    (split; [intros E; first [discriminate E | now repeat split]|]);
    (split; [intros E; first [discriminate E | now repeat split]|]);
    intros E; first [discriminate E | now repeat split].
Qed.

Lemma upstream_dispatch_witness :
  fetches (fst (route (post (hello_body "claude")) (unreachable (TypeError "fetch failed"))))
    = [("https://api.anthropic.com/v1/messages",
        {| fi_method := "POST";
           fi_headers := [("x-api-key", JStr "sk-mine");
                          ("Content-Type", JStr "application/json");
                          ("anthropic-version", JStr "2023-06-01")];
           fi_body := JObj [("model", JStr "m-1"); ("max_tokens", JNum "4000");
                            ("messages", JArr [msg "human" "hello"]);
                            ("stream", JBool false)] |})]
  /\ fetches (fst (route (post (hello_body "openai")) (answers 200 openai_sample)))
    = [("https://api.openai.com/v1/chat/completions",
        {| fi_method := "POST";
           fi_headers := [("Authorization", JStr "Bearer sk-mine");
                          ("Content-Type", JStr "application/json")];
           fi_body := JObj [("model", JStr "m-1");
                            ("messages", JArr [msg "user" "hello"]);
                            ("stream", JBool false)] |})].
Proof.
  split.
  - destruct (proj2 (upstream_dispatch (post (hello_body "claude"))
                       (unreachable (TypeError "fetch failed")))
                (hello_body "claude") [msg "user" "hello"] "claude" "sk-mine"
                (hello_in_order "claude" _ (or_intror (or_introl eq_refl))))
      as (fm & init & _ & F & _).
    rewrite F. vm_compute in F. injection F as <-. reflexivity.
  - destruct (proj2 (upstream_dispatch (post (hello_body "openai"))
                       (answers 200 openai_sample))
                (hello_body "openai") [msg "user" "hello"] "openai" "sk-mine"
                (hello_in_order "openai" _ (or_introl eq_refl)))
      as (fm & init & _ & F & _).
    rewrite F. vm_compute in F. injection F as <-. reflexivity.
Defined.
